(** * The Roborock vacuum entity adapter
    ([custom_components/roborock/vacuum.py])

    A shallow embedding of the [RoborockVacuum] entity class and proofs
    about what its methods send to the client and what they return.

    The adapter is glue around two collaborators that are not part of
    the file: the client object ([RoborockClient.send_request]) and the
    two lookup tables imported from the [api] module.  The client is an
    interface here (a type class), the tables are parameters. *)

From Stdlib Require Import ZArith String List Bool Lia.
Import ListNotations.

Local Open Scope string_scope.
Local Open Scope Z_scope.
Local Open Scope list_scope.

Set Implicit Arguments.
Set Warnings "-register-all".

(** ** Python values *)

(** The values that reach the adapter: what a decoded device response
    or a descriptor is built from.  A [PyDict] keeps its items in
    insertion order, as Python does.  Floating-point numbers are left
    out of the universe. *)
Inductive PyVal : Type :=
| PyNone
| PyBool (b : bool)
| PyInt (z : Z)
| PyStr (s : string)
| PyList (l : list PyVal)
| PyDict (items : list (PyVal * PyVal)).

Definition pydict : Type := list (PyVal * PyVal).

(** Exceptions, by class.  [TypeError] and [AttributeError] are the
    ones the adapter's own expressions can raise; [ClientError] stands
    for whatever the client raises. *)
Inductive exn : Type :=
| TypeError
| AttributeError
| ClientError (what : string).

(** A Python expression or call either returns a value or raises. *)
Inductive outcome (A : Type) : Type :=
| Returned (a : A)
| Raised (e : exn).
Arguments Raised {A} e.

(** [isinstance(v, dict)] *)
Definition isinstance_dict (v : PyVal) : bool :=
  match v with PyDict _ => true | _ => false end.

(** [v is not None] *)
Definition is_not_None (v : PyVal) : bool :=
  match v with PyNone => false | _ => true end.

(** [hash(v)] is defined for everything but lists and dicts. *)
Definition hashable (v : PyVal) : bool :=
  match v with PyList _ | PyDict _ => false | _ => true end.

Definition bool_to_Z (b : bool) : Z := if b then 1 else 0.

(** Python's [==] on hashable values, the comparison a dict uses on
    keys: a bool is the integer 0 or 1, and values of different kinds
    are otherwise unequal. *)
Definition key_eqb (a b : PyVal) : bool :=
  match a, b with
  | PyNone, PyNone => true
  | PyBool x, PyBool y => Bool.eqb x y
  | PyInt x, PyInt y => Z.eqb x y
  | PyBool x, PyInt y => Z.eqb (bool_to_Z x) y
  | PyInt x, PyBool y => Z.eqb x (bool_to_Z y)
  | PyStr x, PyStr y => String.eqb x y
  | _, _ => false
  end.

(** The item found under key [k], if any. *)
Fixpoint dict_find (k : PyVal) (d : pydict) : option PyVal :=
  match d with
  | [] => None
  | (k', v) :: d' => if key_eqb k' k then Some v else dict_find k d'
  end.

(** [d.get(k)]: hashing the key comes first and raises [TypeError] for
    a list or a dict; a missing key gives [None]. *)
Definition dict_get (d : pydict) (k : PyVal) : outcome PyVal :=
  if hashable k then
    Returned (match dict_find k d with Some v => v | None => PyNone end)
  else Raised TypeError.

(** [obj.get(k)]: only a dict has the method. *)
Definition py_get (obj k : PyVal) : outcome PyVal :=
  match obj with
  | PyDict d => dict_get d k
  | _ => Raised AttributeError
  end.

(** ["..." + v] with a string on the left: concatenation when [v] is a
    string, [TypeError] otherwise. *)
Definition str_add (s : string) (v : PyVal) : outcome PyVal :=
  match v with
  | PyStr t => Returned (PyStr (s ++ t)%string)
  | _ => Raised TypeError
  end.

(** ** The tables of the [api] module *)

(** [STATE_CODE_TO_STRING] and [FAN_SPEEDS] map integer device codes to
    labels.  A table is its items in insertion order; as a dict it has
    no key twice. *)
Definition table : Type := list (Z * string).

Definition table_codes (t : table) : list Z := List.map fst t.

Definition table_wf (t : table) : Prop := NoDup (table_codes t).

(** The table as the Python dict the code reads. *)
Definition table_dict (t : table) : pydict :=
  List.map (fun kv => (PyInt (fst kv), PyStr (snd kv))) t.

(** [t[k]] on the table itself, [None] when [k] is not a code. *)
Fixpoint table_lookup (t : table) (k : Z) : option string :=
  match t with
  | [] => None
  | (k', v) :: t' => if Z.eqb k' k then Some v else table_lookup t' k
  end.

(** The codes of the table that map to [label], in table order: the
    reverse lookup as the specification words it. *)
Definition codes_with_label (t : table) (label : string) : list Z :=
  List.filter
    (fun k => match table_lookup t k with
              | Some l => String.eqb l label
              | None => false
              end)
    (table_codes t).

(** The integer a key stands for in a dict keyed by integers: an
    integer itself, a boolean as 0 or 1, nothing else. *)
Definition key_code (v : PyVal) : option Z :=
  match v with
  | PyInt k => Some k
  | PyBool b => Some (bool_to_Z b)
  | _ => None
  end.

(** What [t.get(code)] gives, read on the table itself. *)
Definition table_get (t : table) (code : PyVal) : outcome PyVal :=
  if hashable code then
    Returned (match key_code code with
              | Some k => match table_lookup t k with
                          | Some l => PyStr l
                          | None => PyNone
                          end
              | None => PyNone
              end)
  else Raised TypeError.

(** [d[k]] on a dict keyed by strings. *)
Fixpoint lookup_str {V : Type} (k : string) (d : list (string * V)) : option V :=
  match d with
  | [] => None
  | (k', v) :: d' => if String.eqb k' k then Some v else lookup_str k d'
  end.

(** ** The client *)

(** One call of [send_request(device_id, command, params,
    wait_for_response)]. *)
Record request : Type := Request {
  device_id : PyVal;
  command : string;
  params : PyVal;
  wait_for_response : bool
}.

(** [RoborockClient]: all the adapter uses of it is [send_request],
    which answers with a value or raises and may change the client. *)
Class RoborockClient (C : Type) : Type :=
  send_request : C -> PyVal -> string -> PyVal -> bool -> outcome PyVal * C.

(** ** Programs that talk to the client *)

(** A computation either is done or calls the client and goes on with
    its answer. *)
Inductive io (X : Type) : Type :=
| Done (x : X)
| Call (r : request) (k : outcome PyVal -> io X).
Arguments Call {X} r k.

Fixpoint io_bind {X Y : Type} (p : io X) (f : X -> io Y) : io Y :=
  match p with
  | Done x => f x
  | Call r k => Call r (fun o => io_bind (k o) f)
  end.

(** Running a computation against a client: the result, the client
    afterwards and the requests made, in order. *)
Fixpoint run {C : Type} `{RoborockClient C} {X : Type}
    (p : io X) (c : C) : X * C * list request :=
  match p with
  | Done x => (x, c, [])
  | Call r k =>
      let '(o, c1) :=
        send_request c (device_id r) (command r) (params r)
          (wait_for_response r) in
      let '(x, c2, tr) := run (k o) c1 in
      (x, c2, r :: tr)
  end.

(** ** The entity *)

(** The fields [__init__] sets, the client handle apart: the client is
    the one the computation runs against. *)
Record RoborockVacuum : Type := Entity {
  _name : PyVal;
  _device : PyVal;
  _status : PyVal
}.

(** [self._status = v] *)
Definition set_status (self : RoborockVacuum) (v : PyVal) : RoborockVacuum :=
  {| _name := _name self; _device := _device self; _status := v |}.

(** A method: it reads and writes [self], may call the client, and
    returns or raises.  An exception leaves [self] as it was when it
    was raised. *)
Definition method (A : Type) : Type :=
  RoborockVacuum -> io (outcome A * RoborockVacuum).

Definition ret {A : Type} (a : A) : method A :=
  fun self => Done (Returned a, self).

Definition bind {A B : Type} (m : method A) (f : A -> method B) : method B :=
  fun self =>
    io_bind (m self) (fun r =>
      match fst r with
      | Returned a => f a (snd r)
      | Raised e => Done (Raised e, snd r)
      end).

(** An expression evaluated inside a method. *)
Definition eval {A : Type} (o : outcome A) : method A :=
  fun self => Done (o, self).

Definition get_self : method RoborockVacuum :=
  fun self => Done (Returned self, self).

Definition put_status (v : PyVal) : method unit :=
  fun self => Done (Returned tt, set_status self v).

(** [self._client.send_request(...)]: no handler around it, so what
    the client raises goes up. *)
Definition call_client (r : request) : method PyVal :=
  fun self => Call r (fun o => Done (o, self)).

Declare Scope method_scope.
Delimit Scope method_scope with method.
Notation "x <- m ;; k" := (bind m (fun x => k))
  (at level 61, m at next level, right associativity) : method_scope.
Notation "m ;; k" := (bind m (fun _ => k))
  (at level 61, right associativity) : method_scope.
Local Open Scope method_scope.

(** Calling a method on an entity, against a client. *)
Definition invoke {C : Type} `{RoborockClient C} {A : Type}
    (m : method A) (self : RoborockVacuum) (c : C)
    : outcome A * RoborockVacuum * C * list request :=
  run (m self) c.

(** The flags of the host's [VacuumEntityFeature] that the adapter
    names. *)
Inductive VacuumEntityFeature : Type :=
| TURN_ON | TURN_OFF | PAUSE | STOP | RETURN_HOME | FAN_SPEED | BATTERY
| STATUS | SEND_COMMAND | LOCATE | CLEAN_SPOT | STATE | START | MAP.

Module Vacuum.

(** The members of the class that the host reaches through the entity
    interface and that hand back a Python value, with their arguments.
    The other three members of the class, [send], [device_info] and the
    constructor, are added in [member] below. *)
Inductive operation : Type :=
| OpUpdate
| OpSupportedFeatures
| OpName
| OpIcon
| OpUniqueId
| OpState
| OpStatus
| OpBatteryLevel
| OpFanSpeed
| OpFanSpeedList
| OpMap
| OpStart
| OpPause
| OpStop
| OpReturnToBase
| OpCleanSpot
| OpLocate
| OpSetFanSpeed (fan_speed : string)
| OpSendCommand (command : string) (params : PyVal)
| OpStartPause.

(** The command operations and the keyword each is to forward. *)
Definition command_operations : list (operation * string) :=
  [ (OpStart, "app_start");
    (OpPause, "app_stop");
    (OpStop, "app_stop");
    (OpReturnToBase, "app_charge");
    (OpCleanSpot, "app_spot");
    (OpLocate, "find_me");
    (OpStartPause, "app_pause") ].

(** The requests an operation makes all carry one command keyword,
    [sent_keyword op], when it makes any. *)
Definition sent_keyword (op : operation) : option string :=
  match op with
  | OpUpdate => Some "get_status"
  | OpMap => Some "get_map_v1"
  | OpStart => Some "app_start"
  | OpPause | OpStop => Some "app_stop"
  | OpReturnToBase => Some "app_charge"
  | OpCleanSpot => Some "app_spot"
  | OpLocate => Some "find_me"
  | OpSetFanSpeed _ => Some "set_custom_mode"
  | OpSendCommand cmd _ => Some cmd
  | OpStartPause => Some "app_pause"
  | _ => None
  end.

(** The flags [supported_features] is to combine. *)
Definition supported_flags : list VacuumEntityFeature :=
  [ TURN_ON; TURN_OFF; PAUSE; STOP; RETURN_HOME; FAN_SPEED; BATTERY;
    STATUS; SEND_COMMAND; LOCATE; CLEAN_SPOT; STATE; START; MAP ].

(** The parameters an operation passes with its keyword. *)
Definition sent_params (FAN_SPEEDS : table) (op : operation) : PyVal :=
  match op with
  | OpSetFanSpeed fan_speed =>
      PyList (List.map PyInt
                (List.map fst
                   (List.filter (fun kv => String.eqb (snd kv) fan_speed)
                      FAN_SPEEDS)))
  | OpSendCommand _ params => params
  | _ => PyNone
  end.

(** The host's [DeviceInfo], with the entries the adapter fills in.
    [identifiers] is a set of pairs; the adapter builds it with one
    element. *)
Record DeviceInfo : Type := {
  info_name : PyVal;
  identifiers : list (string * PyVal);
  manufacturer : string;
  model : PyVal
}.

(** How [async_setup_entry] ends: with the entities it hands to
    [async_add_devices], with a [KeyError] from [hass.data], or with
    what a constructor raised. *)
Inductive setup_result : Type :=
| Added (entities : list RoborockVacuum)
| SetupKeyError (key : string)
| SetupRaised (e : exn).

Section Adapter.

(** [from .api import STATE_CODE_TO_STRING, FAN_SPEEDS] *)
Variable STATE_CODE_TO_STRING : table.
Variable FAN_SPEEDS : table.

(** The integer value of each flag, set by the host platform. *)
Variable flag : VacuumEntityFeature -> Z.

(** [from .const import DOMAIN] *)
Variable DOMAIN : string.

(** [__init__(self, device, client)] *)
Definition init (device : PyVal) : outcome RoborockVacuum :=
  match py_get device (PyStr "name") with
  | Returned n => Returned {| _name := n; _device := device;
                              _status := PyDict [] |}
  | Raised e => Raised e
  end.

(** [send(self, command, params=None)] *)
Definition send (command : string) (params : PyVal) : method PyVal :=
  self <- get_self ;;
  duid <- eval (py_get (_device self) (PyStr "duid")) ;;
  call_client (Request duid command params true).

(** [update(self)] *)
Definition update : method PyVal :=
  updated_status <- send "get_status" PyNone ;;
  if is_not_None updated_status && isinstance_dict updated_status
  then put_status updated_status ;; ret PyNone
  else ret PyNone.

(** [supported_features] *)
Definition supported_features : method PyVal :=
  let features :=
    flag TURN_ON
    + flag TURN_OFF
    + flag PAUSE
    + flag STOP
    + flag RETURN_HOME
    + flag FAN_SPEED
    + flag BATTERY
    + flag STATUS
    + flag SEND_COMMAND
    + flag LOCATE
    + flag CLEAN_SPOT
    + flag STATE
    + flag START
    + flag MAP in
  ret (PyInt features).

(** [name] *)
Definition name : method PyVal :=
  self <- get_self ;; ret (_name self).

(** [icon] *)
Definition icon : method PyVal :=
  ret (PyStr "mdi:robot-vacuum").

(** [unique_id] *)
Definition unique_id : method PyVal :=
  self <- get_self ;;
  duid <- eval (py_get (_device self) (PyStr "duid")) ;;
  eval (str_add "vacuum." duid).

(** [status] *)
Definition status : method PyVal :=
  self <- get_self ;;
  code <- eval (py_get (_status self) (PyStr "state")) ;;
  eval (dict_get (table_dict STATE_CODE_TO_STRING) code).

(** [state] *)
Definition state : method PyVal := status.

(** [battery_level] *)
Definition battery_level : method PyVal :=
  self <- get_self ;;
  eval (py_get (_status self) (PyStr "battery")).

(** [fan_speed] *)
Definition fan_speed : method PyVal :=
  self <- get_self ;;
  code <- eval (py_get (_status self) (PyStr "fan_power")) ;;
  eval (dict_get (table_dict FAN_SPEEDS) code).

(** [fan_speed_list]: [list(FAN_SPEEDS.values())] *)
Definition fan_speed_list : method PyVal :=
  ret (PyList (List.map (fun kv => PyStr (snd kv)) FAN_SPEEDS)).

(** [map] *)
Definition map : method PyVal :=
  send "get_map_v1" PyNone.

Definition start : method PyVal :=
  send "app_start" PyNone ;; ret PyNone.

Definition pause : method PyVal :=
  send "app_stop" PyNone ;; ret PyNone.

Definition stop : method PyVal :=
  send "app_stop" PyNone ;; ret PyNone.

Definition return_to_base : method PyVal :=
  send "app_charge" PyNone ;; ret PyNone.

Definition clean_spot : method PyVal :=
  send "app_spot" PyNone ;; ret PyNone.

Definition locate : method PyVal :=
  send "find_me" PyNone ;; ret PyNone.

(** [[k for k, v in FAN_SPEEDS.items() if v == fan_speed]] *)
Definition codes_of_label (label : string) : list Z :=
  List.map fst (List.filter (fun kv => String.eqb (snd kv) label) FAN_SPEEDS).

(** [set_fan_speed(self, fan_speed)] *)
Definition set_fan_speed (fan_speed : string) : method PyVal :=
  send "set_custom_mode" (PyList (List.map PyInt (codes_of_label fan_speed))) ;;
  ret PyNone.

(** [send_command(self, command, params=None)] *)
Definition send_command (command : string) (params : PyVal) : method PyVal :=
  send command params.

Definition start_pause : method PyVal :=
  send "app_pause" PyNone ;; ret PyNone.

(** Attribute lookup on the class: the member an operation names. *)
Definition call (op : operation) : method PyVal :=
  match op with
  | OpUpdate => update
  | OpSupportedFeatures => supported_features
  | OpName => name
  | OpIcon => icon
  | OpUniqueId => unique_id
  | OpState => state
  | OpStatus => status
  | OpBatteryLevel => battery_level
  | OpFanSpeed => fan_speed
  | OpFanSpeedList => fan_speed_list
  | OpMap => map
  | OpStart => start
  | OpPause => pause
  | OpStop => stop
  | OpReturnToBase => return_to_base
  | OpCleanSpot => clean_spot
  | OpLocate => locate
  | OpSetFanSpeed fan_speed => set_fan_speed fan_speed
  | OpSendCommand command params => send_command command params
  | OpStartPause => start_pause
  end.

(** [device_info]: the keyword arguments are evaluated in order, and
    building the set hashes the pair [(DOMAIN, duid)]. *)
Definition device_info : method DeviceInfo :=
  self <- get_self ;;
  duid <- eval (py_get (_device self) (PyStr "duid")) ;;
  ids <- eval (if hashable duid then Returned [(DOMAIN, duid)]
               else Raised TypeError) ;;
  device_model <- eval (py_get (_device self) (PyStr "model")) ;;
  ret {| info_name := _name self;
         identifiers := ids;
         manufacturer := "Roborock";
         model := device_model |}.

(** [[RoborockVacuum(device, coordinator.api) for device in
    coordinator.api.devices]]: the constructors run in order and the
    first exception ends the comprehension. *)
Fixpoint construct_all (devices : list PyVal) : outcome (list RoborockVacuum) :=
  match devices with
  | [] => Returned []
  | device :: rest =>
      match init device with
      | Raised e => Raised e
      | Returned entity =>
          match construct_all rest with
          | Raised e => Raised e
          | Returned entities => Returned (entity :: entities)
          end
      end
  end.

(** [async_setup_entry(hass, entry, async_add_devices)].  [hass_data]
    is [hass.data], from domain to entry id to the devices of that
    coordinator's api; the result is the list given to
    [async_add_devices]. *)
Definition async_setup_entry
    (hass_data : list (string * list (string * list PyVal)))
    (entry_id : string) : setup_result :=
  match lookup_str DOMAIN hass_data with
  | None => SetupKeyError DOMAIN
  | Some entries =>
      match lookup_str entry_id entries with
      | None => SetupKeyError entry_id
      | Some devices =>
          match construct_all devices with
          | Returned entities => Added entities
          | Raised e => SetupRaised e
          end
      end
  end.

End Adapter.
End Vacuum.


(** Every member the class defines: the operations above, [send]
    itself, [device_info] and the constructor. *)
Inductive member : Type :=
| Operation (op : Vacuum.operation)
| Send (command : string) (params : PyVal)
| DeviceInfoMember
| Constructor (device : PyVal).

(** The keyword a member passes to the client, when it passes one. *)
Definition member_keyword (m : member) : option string :=
  match m with
  | Operation op => Vacuum.sent_keyword op
  | Send command _ => Some command
  | DeviceInfoMember => None
  | Constructor _ => None
  end.

(** The requests a member makes when called on [self] against [c].
    The constructor only reads the descriptor's name and stores its
    arguments, the client handle among them: it makes no request. *)
Definition member_requests {C : Type} `{RoborockClient C}
    (STATE_CODE_TO_STRING FAN_SPEEDS : table)
    (flag : VacuumEntityFeature -> Z) (DOMAIN : string)
    (m : member) (self : RoborockVacuum) (c : C) : list request :=
  match m with
  | Operation op =>
      snd (invoke (Vacuum.call STATE_CODE_TO_STRING FAN_SPEEDS flag op) self c)
  | Send command params => snd (invoke (Vacuum.send command params) self c)
  | DeviceInfoMember => snd (invoke (Vacuum.device_info DOMAIN) self c)
  | Constructor device => []
  end.

(** The four parts of what [invoke] gives. *)
Section Projections.
Context {C A : Type}.
Definition result_of (x : outcome A * RoborockVacuum * C * list request)
  : outcome A := fst (fst (fst x)).
Definition self_after (x : outcome A * RoborockVacuum * C * list request)
  : RoborockVacuum := snd (fst (fst x)).
Definition client_after (x : outcome A * RoborockVacuum * C * list request)
  : C := snd (fst x).
Definition requests_of (x : outcome A * RoborockVacuum * C * list request)
  : list request := snd x.
End Projections.

(** [device.get("duid")] for a descriptor that is a dict: the device id
    every request carries. *)
Definition descriptor_duid (device : pydict) : PyVal :=
  match dict_find (PyStr "duid") device with
  | Some v => v
  | None => PyNone
  end.

(** [device.get(key)] for a descriptor that is a dict. *)
Definition descriptor_entry (key : string) (device : pydict) : PyVal :=
  match dict_find (PyStr key) device with
  | Some v => v
  | None => PyNone
  end.

(** [snapshot.get(key)] for a snapshot that is a dict. *)
Definition snapshot_entry (key : string) (snapshot : pydict) : PyVal :=
  match dict_find (PyStr key) snapshot with
  | Some v => v
  | None => PyNone
  end.

(** [snapshot.get("state")] for a snapshot that is a dict. *)
Definition snapshot_state (snapshot : pydict) : PyVal :=
  match dict_find (PyStr "state") snapshot with
  | Some v => v
  | None => PyNone
  end.

(** ** Sample data *)

(** A client that answers from a script, one entry per request, and
    with [None] once the script is over. *)
Definition scripted : Type := list (outcome PyVal).

#[export] Instance scripted_client : RoborockClient scripted :=
  fun c _ _ _ _ =>
    match c with
    | [] => (Returned PyNone, [])
    | o :: c' => (o, c')
    end.

Definition sample_device : pydict :=
  [ (PyStr "name", PyStr "Robo");
    (PyStr "duid", PyStr "abc123");
    (PyStr "model", PyStr "roborock.vacuum.s5") ].

Definition sample_snapshot : pydict :=
  [ (PyStr "state", PyInt 8);
    (PyStr "battery", PyInt 100);
    (PyStr "fan_power", PyInt 102) ].

Definition sample_vacuum : RoborockVacuum :=
  Entity (PyStr "Robo") (PyDict sample_device) (PyDict sample_snapshot).

(** A vacuum just constructed: no snapshot yet. *)
Definition fresh_vacuum : RoborockVacuum :=
  Entity (PyStr "Robo") (PyDict sample_device) (PyDict []).

(** A descriptor with the duid and nothing else, and one without it. *)
Definition duid_only_device : pydict := [ (PyStr "duid", PyStr "abc123") ].

Definition no_duid_device : pydict := [ (PyStr "name", PyStr "Robo") ].

(** Snapshots with a state code no table below knows, and with a state
    entry that is a list. *)
Definition unknown_state_snapshot : pydict :=
  [ (PyStr "state", PyInt 99); (PyStr "battery", PyInt 57) ].

Definition list_state_snapshot : pydict :=
  [ (PyStr "state", PyList []); (PyStr "battery", PyInt 57) ].

(** A [hass.data] with one config entry whose api knows two devices. *)
Definition second_device : pydict :=
  [ (PyStr "name", PyStr "Upstairs"); (PyStr "duid", PyStr "xyz789") ].

Definition sample_hass_data : list (string * list (string * list PyVal)) :=
  [ ("roborock", [ ("entry-1", [PyDict sample_device; PyDict second_device]) ]) ].

(** A client whose next call raises. *)
Definition raising_script : scripted := [ Raised (ClientError "timeout") ].

(** A snapshot whose fan power is a list. *)
Definition list_fan_power_snapshot : pydict :=
  [ (PyStr "state", PyInt 8); (PyStr "fan_power", PyList [PyInt 102]) ].

(** Client scripts: a status answer, and two different map answers. *)
Definition status_script : scripted :=
  [ Returned (PyDict sample_snapshot); Returned PyNone ].

Definition map_script : scripted :=
  [ Returned (PyStr "map-1"); Returned (PyStr "map-2") ].

Definition sample_states : table :=
  [ (3, "idle"); (5, "cleaning"); (8, "charging") ].

Definition sample_fan_speeds : table :=
  [ (101, "Silent"); (102, "Balanced"); (103, "Turbo"); (104, "Max") ].

(** A fan-speed table in which two codes carry one label. *)
Definition shared_label_fan_speeds : table :=
  [ (101, "Quiet"); (102, "Balanced"); (105, "Quiet") ].

(** The bit Home Assistant gives each flag, and its value. *)
Definition ha_bit (f : VacuumEntityFeature) : nat :=
  match f with
  | TURN_ON => 0 | TURN_OFF => 1 | PAUSE => 2 | STOP => 3
  | RETURN_HOME => 4 | FAN_SPEED => 5 | BATTERY => 6 | STATUS => 7
  | SEND_COMMAND => 8 | LOCATE => 9 | CLEAN_SPOT => 10 | MAP => 11
  | STATE => 12 | START => 13
  end%nat.

Definition ha_flag (f : VacuumEntityFeature) : Z := 2 ^ Z.of_nat (ha_bit f).

(** * Properties *)

(** Running a sequence: the second part starts from the client the
    first part left, and the requests follow one another. *)
Lemma run_io_bind {C : Type} {client : RoborockClient C} {X Y : Type}
    (p : io X) (f : X -> io Y) (c : C) :
  run (io_bind p f) c =
  let '(x, c1, t1) := run p c in
  let '(y, c2, t2) := run (f x) c1 in
  (y, c2, t1 ++ t2).
Proof.
  revert c; induction p as [x | r k IH]; intros c; simpl.
  - destruct (run (f x) c) as [[y c2] t2]; reflexivity.
  - destruct (send_request c (device_id r) (command r) (params r)
                (wait_for_response r)) as [o c1].
    rewrite IH.
    destruct (run (k o) c1) as [[x c2] t1].
    destruct (run (f x) c2) as [[y c3] t2]; reflexivity.
Qed.

Lemma invoke_bind {C : Type} {client : RoborockClient C} {A B : Type}
    (m : method A) (f : A -> method B) (self : RoborockVacuum) (c : C) :
  invoke (bind m f) self c =
  match invoke m self c with
  | (Returned a, s1, c1, t1) =>
      let '(o, s2, c2, t2) := invoke (f a) s1 c1 in (o, s2, c2, t1 ++ t2)
  | (Raised e, s1, c1, t1) => (Raised e, s1, c1, t1)
  end.
Proof.
  unfold invoke, bind; rewrite run_io_bind.
  destruct (run (m self) c) as [[[[a | e] s1] c1] t1]; simpl.
  - destruct (run (f a s1) c1) as [[[o s2] c2] t2]; reflexivity.
  - rewrite app_nil_r; reflexivity.
Qed.

(** Unfolds a method call down to the client's answers and splits on
    them. *)
Ltac step_method :=
  unfold invoke, requests_of, Vacuum.call, Vacuum.update,
    Vacuum.supported_features, Vacuum.name, Vacuum.icon, Vacuum.unique_id,
    Vacuum.state, Vacuum.status, Vacuum.battery_level, Vacuum.fan_speed,
    Vacuum.fan_speed_list, Vacuum.map, Vacuum.start, Vacuum.pause,
    Vacuum.stop, Vacuum.return_to_base, Vacuum.clean_spot, Vacuum.locate,
    Vacuum.set_fan_speed, Vacuum.send_command, Vacuum.start_pause,
    Vacuum.send, bind, get_self, eval, call_client, put_status, ret;
  simpl.

Ltac split_answers :=
  repeat match goal with
         | |- context [match ?x with _ => _ end] => destruct x; simpl
         | H : context [match ?x with _ => _ end] |- _ => destruct x; simpl in H
         end.

Section ClientFacing.

Context {C : Type} {client : RoborockClient C}.

Variables (STATE_CODE_TO_STRING FAN_SPEEDS : table).
Variable flag : VacuumEntityFeature -> Z.
Variable DOMAIN : string.
Variables (n : PyVal) (dev : pydict) (st : PyVal).

Local Abbreviation call := (Vacuum.call STATE_CODE_TO_STRING FAN_SPEEDS flag).

Local Abbreviation self := (Entity n (PyDict dev) st).
Local Abbreviation duid := (descriptor_duid dev).

(** [send] makes one call, with the descriptor's duid, the command and
    the parameters as given, waiting for the response, and hands back
    whatever the client answers. *)
Lemma invoke_send (cmd : string) (p : PyVal) (c : C) :
  invoke (Vacuum.send cmd p) self c =
  (fst (send_request c duid cmd p true), self,
   snd (send_request c duid cmd p true),
   [Request duid cmd p true]).
Proof.
  unfold invoke, Vacuum.send, bind, get_self, eval, call_client,
    descriptor_duid; simpl.
  destruct (dict_find (PyStr "duid") dev); simpl;
    destruct (send_request c _ cmd p true); reflexivity.
Qed.

(** A command that drops the answer of [send]. *)
Lemma invoke_send_discard (cmd : string) (p : PyVal) (c : C) :
  invoke (Vacuum.send cmd p ;; ret PyNone) self c =
  (match fst (send_request c duid cmd p true) with
   | Returned _ => Returned PyNone
   | Raised e => Raised e
   end, self,
   snd (send_request c duid cmd p true),
   [Request duid cmd p true]).
Proof.
  unfold invoke, Vacuum.send, bind, get_self, eval, call_client, ret,
    descriptor_duid; simpl.
  destruct (dict_find (PyStr "duid") dev); simpl;
    destruct (send_request c _ cmd p true) as [[v|e] c']; reflexivity.
Qed.

(** [update] when the client raises: the exception goes up and the
    snapshot stays. *)
Lemma update_client_raises (c c' : C) (e : exn) :
  send_request c duid "get_status" PyNone true = (Raised e, c') ->
  invoke Vacuum.update self c =
  (Raised e, self, c', [Request duid "get_status" PyNone true]).
Proof.
  intros Hc.
  unfold invoke, Vacuum.update, Vacuum.send, bind, get_self, eval,
    call_client, descriptor_duid in *; simpl.
  destruct (dict_find (PyStr "duid") dev); simpl; rewrite Hc; reflexivity.
Qed.

(** The snapshot stays a mapping through [update], whatever the client
    does. *)
Lemma update_keeps_snapshot_a_mapping (c : C) :
  isinstance_dict st = true ->
  isinstance_dict (_status (self_after (invoke Vacuum.update self c))) = true.
Proof.
  intros Hst.
  unfold Vacuum.update; rewrite invoke_bind, invoke_send.
  destruct (send_request c duid "get_status" PyNone true) as [[v | e] c'];
    simpl; [destruct v | ]; simpl; trivial.
Qed.

(** [update] when the client returns the value [v]. *)
Lemma update_on_returned_value (c c' : C) (v : PyVal) :
  send_request c duid "get_status" PyNone true = (Returned v, c') ->
  exists self',
    invoke Vacuum.update self c =
      (Returned PyNone, self', c', [Request duid "get_status" PyNone true])
    /\ _name self' = n /\ _device self' = PyDict dev
    /\ (isinstance_dict v = true -> _status self' = v)
    /\ (isinstance_dict v = false -> self' = self)
    /\ (_status self' = v <-> isinstance_dict v = true \/ st = v).
Proof.
  intros Hc.
  exists (if isinstance_dict v then set_status self v else self).
  split.
  - unfold invoke, Vacuum.update, Vacuum.send, bind, get_self, eval,
      call_client, put_status, ret, descriptor_duid in *; simpl.
    destruct (dict_find (PyStr "duid") dev); simpl; rewrite Hc;
      destruct v; reflexivity.
  - destruct (isinstance_dict v) eqn:Hv; simpl; repeat split;
      try congruence; auto.
    + intros [H | H]; congruence.
Qed.

(** C1 (as amended). [update] asks the client for ["get_status"]
    once.  When the client returns a value [v], nothing is raised: if
    [v] is a mapping the stored snapshot becomes [v] itself, with
    nothing kept of the prior snapshot, and if [v] is anything else
    ([None] included) the entity is exactly as before; so the snapshot
    is replaced if and only if the returned value is a mapping.  When
    the client call raises, [update] catches nothing: the same
    exception goes up, and the entity is as before.  [update] raises
    exactly when the client does. *)
Theorem update_follows_the_client (c : C) :
  (forall v c',
     send_request c duid "get_status" PyNone true = (Returned v, c') ->
     exists self',
       invoke Vacuum.update self c =
         (Returned PyNone, self', c', [Request duid "get_status" PyNone true])
       /\ _name self' = n /\ _device self' = PyDict dev
       /\ (isinstance_dict v = true -> _status self' = v)
       /\ (isinstance_dict v = false -> self' = self)
       /\ (_status self' = v <-> isinstance_dict v = true \/ st = v))
  /\ (forall e c',
        send_request c duid "get_status" PyNone true = (Raised e, c') ->
        invoke Vacuum.update self c =
          (Raised e, self, c', [Request duid "get_status" PyNone true]))
  /\ (forall e,
        result_of (invoke Vacuum.update self c) = Raised e
        <-> fst (send_request c duid "get_status" PyNone true) = Raised e).
Proof.
  split; [ | split].
  - intros v c' Hc; exact (update_on_returned_value Hc).
  - intros e c' Hc; exact (update_client_raises Hc).
  - intros e.
    destruct (send_request c duid "get_status" PyNone true) as [[v | e'] c']
      eqn:Hc; simpl.
    + destruct (update_on_returned_value Hc) as [self' [Hu _]].
      rewrite Hu; unfold result_of; simpl; split; discriminate.
    + rewrite (update_client_raises Hc); unfold result_of; simpl.
      split; trivial.
Qed.

(** C6. Each of [start], [pause], [stop], [return_to_base],
    [clean_spot], [locate] and [start_pause] makes exactly one request:
    its own fixed keyword, for the descriptor's duid, with [None] as
    parameters.  It leaves the entity as it was, and whatever value the
    client returns, the operation returns [None]. *)
Theorem command_operations_forward_one_keyword
    (op : Vacuum.operation) (kw : string) (c : C) :
  In (op, kw) Vacuum.command_operations ->
  requests_of (invoke (call op) self c) = [Request duid kw PyNone true]
  /\ self_after (invoke (call op) self c) = self
  /\ forall v c',
       send_request c duid kw PyNone true = (Returned v, c') ->
       invoke (call op) self c =
       (Returned PyNone, self, c', [Request duid kw PyNone true]).
Proof.
  intros Hin.
  assert (Hcall : call op = (Vacuum.send kw PyNone ;; ret PyNone)).
  { simpl in Hin.
    repeat (destruct Hin as [Hin | Hin];
            [injection Hin as <- <-; reflexivity | ]).
    contradiction. }
  rewrite Hcall, invoke_send_discard.
  repeat split.
  intros v c' Hc; rewrite Hc; reflexivity.
Qed.

(** C7. Reading [map] asks the client for ["get_map_v1"] and returns
    what the client returned, unchanged.  Nothing is kept between
    reads: two reads in a row make two requests, and each returns the
    answer to its own request. *)
Theorem map_reads_are_fresh (c c1 c2 : C) (v1 v2 : PyVal) :
  send_request c duid "get_map_v1" PyNone true = (Returned v1, c1) ->
  send_request c1 duid "get_map_v1" PyNone true = (Returned v2, c2) ->
  invoke Vacuum.map self c =
    (Returned v1, self, c1, [Request duid "get_map_v1" PyNone true])
  /\ invoke Vacuum.map self c1 =
    (Returned v2, self, c2, [Request duid "get_map_v1" PyNone true])
  /\ invoke (a <- Vacuum.map ;; b <- Vacuum.map ;; ret (a, b)) self c =
    (Returned (v1, v2), self, c2,
     [Request duid "get_map_v1" PyNone true;
      Request duid "get_map_v1" PyNone true]).
Proof.
  intros H1 H2.
  assert (E1 : invoke Vacuum.map self c =
    (Returned v1, self, c1, [Request duid "get_map_v1" PyNone true])).
  { unfold Vacuum.map; rewrite invoke_send, H1; reflexivity. }
  assert (E2 : invoke Vacuum.map self c1 =
    (Returned v2, self, c2, [Request duid "get_map_v1" PyNone true])).
  { unfold Vacuum.map; rewrite invoke_send, H2; reflexivity. }
  repeat split; trivial.
  rewrite invoke_bind, E1, invoke_bind, E2; reflexivity.
Qed.

(** [map] hands on what the client answers in every case, an exception
    included. *)
Lemma map_is_verbatim (c : C) :
  invoke Vacuum.map self c =
  (fst (send_request c duid "get_map_v1" PyNone true), self,
   snd (send_request c duid "get_map_v1" PyNone true),
   [Request duid "get_map_v1" PyNone true]).
Proof. unfold Vacuum.map; apply invoke_send. Qed.

(** [update] makes its one request whatever the client answers. *)
Lemma update_requests (c : C) :
  requests_of (invoke Vacuum.update self c)
  = [Request duid "get_status" PyNone true].
Proof.
  unfold Vacuum.update; rewrite invoke_bind, invoke_send.
  destruct (send_request c duid "get_status" PyNone true) as [[v | e] c'];
    simpl; [destruct v | ]; reflexivity.
Qed.

Lemma requests_carry_sent_keyword (op : Vacuum.operation) (c : C) (r : request) :
  In r (requests_of (invoke (call op) self c)) ->
  Vacuum.sent_keyword op = Some (command r).
Proof.
  destruct op; simpl Vacuum.call;
    try (unfold Vacuum.start, Vacuum.pause, Vacuum.stop,
           Vacuum.return_to_base, Vacuum.clean_spot, Vacuum.locate,
           Vacuum.set_fan_speed, Vacuum.start_pause;
         rewrite invoke_send_discard; simpl;
         intros [<- | []]; reflexivity);
    try (unfold Vacuum.map, Vacuum.send_command;
         rewrite invoke_send; simpl; intros [<- | []]; reflexivity);
    try (rewrite update_requests; simpl; intros [<- | []]; reflexivity);
    step_method; split_answers; contradiction.
Qed.

(** [device_info] calls nobody. *)
Lemma device_info_requests (c : C) :
  requests_of (invoke (Vacuum.device_info DOMAIN) self c) = [].
Proof.
  unfold invoke, requests_of, Vacuum.device_info, bind, get_self, eval, ret,
    py_get, dict_get; simpl.
  destruct (dict_find (PyStr "duid") dev) as [v |]; simpl;
    [destruct (hashable v) | ]; simpl;
    destruct (dict_find (PyStr "model") dev); reflexivity.
Qed.

(** The requests of any member of the class carry the member's
    keyword. *)
Lemma member_requests_carry_keyword (m : member) (c : C) (r : request) :
  In r (member_requests STATE_CODE_TO_STRING FAN_SPEEDS flag DOMAIN m self c) ->
  member_keyword m = Some (command r).
Proof.
  destruct m as [op | cmd p | | device]; simpl.
  - apply requests_carry_sent_keyword.
  - change (snd (invoke (Vacuum.send cmd p) self c))
      with (requests_of (invoke (Vacuum.send cmd p) self c)).
    rewrite invoke_send; simpl; intros [<- | []]; reflexivity.
  - change (snd (invoke (Vacuum.device_info DOMAIN) self c))
      with (requests_of (invoke (Vacuum.device_info DOMAIN) self c)).
    rewrite device_info_requests; contradiction.
  - contradiction.
Qed.

(** C9 (as amended). [pause] and [stop] are the same operation: both
    make the one request ["app_stop"] with [None] as parameters, and
    give the same result against every client.  Of the members whose
    keyword the adapter fixes, only [start_pause] sends ["app_pause"];
    among all the members of the class (the operations, [send],
    [device_info] and the constructor) the only other ways to send it
    are the two passthroughs, [send_command] and [send], called with
    that keyword. *)
Theorem pause_is_stop_and_app_pause_senders (c : C) :
  Vacuum.pause = Vacuum.stop
  /\ invoke Vacuum.pause self c = invoke Vacuum.stop self c
  /\ requests_of (invoke Vacuum.pause self c)
     = [Request duid "app_stop" PyNone true]
  /\ requests_of (invoke Vacuum.start_pause self c)
     = [Request duid "app_pause" PyNone true]
  /\ forall m r,
       In r (member_requests STATE_CODE_TO_STRING FAN_SPEEDS flag DOMAIN
               m self c) ->
       command r = "app_pause" ->
       m = Operation Vacuum.OpStartPause
       \/ (exists p, m = Operation (Vacuum.OpSendCommand "app_pause" p))
       \/ (exists p, m = Send "app_pause" p).
Proof.
  repeat split.
  - unfold Vacuum.pause; rewrite invoke_send_discard; reflexivity.
  - unfold Vacuum.start_pause; rewrite invoke_send_discard; reflexivity.
  - intros m r Hin Hcmd.
    apply member_requests_carry_keyword in Hin; rewrite Hcmd in Hin.
    destruct m as [op | cmd p | | device]; simpl in Hin; try discriminate.
    + destruct op; simpl in Hin; try discriminate.
      * right; left; injection Hin as ->; eauto.
      * left; reflexivity.
    + right; right; injection Hin as ->; eauto.
Qed.

End ClientFacing.

(** ** The lookup tables *)

Section Tables.

Implicit Types (t : table) (k : Z) (l : string).

Lemma table_lookup_In t k l : table_lookup t k = Some l -> In (k, l) t.
Proof.
  induction t as [| [k' v] t IH]; simpl; [discriminate | ].
  destruct (Z.eqb_spec k' k) as [-> | Hne].
  - intros [= ->]; left; reflexivity.
  - intros H; right; exact (IH H).
Qed.

Lemma table_lookup_not_code t k :
  ~ In k (table_codes t) -> table_lookup t k = None.
Proof.
  induction t as [| [k' v] t IH]; simpl; [reflexivity | ].
  intros Hnot; destruct (Z.eqb_spec k' k) as [-> | Hne].
  - exfalso; apply Hnot; left; reflexivity.
  - apply IH; intros Hin; apply Hnot; right; exact Hin.
Qed.

Lemma In_table_lookup t k l :
  table_wf t -> In (k, l) t -> table_lookup t k = Some l.
Proof.
  unfold table_wf, table_codes.
  induction t as [| [k' v] t IH]; simpl; [contradiction | ].
  intros Hnd [Heq | Hin]; inversion Hnd as [| ? ? Hnot Hnd']; subst.
  - injection Heq as -> ->; rewrite Z.eqb_refl; reflexivity.
  - destruct (Z.eqb_spec k' k) as [-> | Hne]; [ | exact (IH Hnd' Hin)].
    exfalso; apply Hnot.
    change k with (fst (k, l)); apply in_map; exact Hin.
Qed.

Lemma table_lookup_iff t k l :
  table_wf t -> (table_lookup t k = Some l <-> In (k, l) t).
Proof.
  intros Hwf; split; [apply table_lookup_In | apply In_table_lookup, Hwf].
Qed.

(** The comprehension of [set_fan_speed] picks the codes the reverse
    lookup names, in the same order. *)
Lemma codes_of_label_spec t l :
  table_wf t -> Vacuum.codes_of_label t l = codes_with_label t l.
Proof.
  unfold table_wf, table_codes, Vacuum.codes_of_label, codes_with_label.
  induction t as [| [k v] t IH]; simpl; [reflexivity | ].
  intros Hnd; inversion Hnd as [| ? ? Hnot Hnd']; subst.
  rewrite Z.eqb_refl.
  assert (Htail :
    List.filter
      (fun k0 => match (if k =? k0 then Some v else table_lookup t k0) with
                 | Some l0 => String.eqb l0 l
                 | None => false
                 end) (List.map fst t)
    = List.filter
      (fun k0 => match table_lookup t k0 with
                 | Some l0 => String.eqb l0 l
                 | None => false
                 end) (List.map fst t)).
  { apply filter_ext_in; intros k0 Hin.
    destruct (Z.eqb_spec k k0) as [-> | Hne]; [contradiction | reflexivity]. }
  unfold table_codes in *; rewrite Htail, <- (IH Hnd').
  destruct (String.eqb v l); reflexivity.
Qed.

Lemma codes_with_label_In t k l :
  In k (codes_with_label t l) <-> table_lookup t k = Some l.
Proof.
  unfold codes_with_label; rewrite filter_In; split.
  - intros [_ H]; destruct (table_lookup t k) as [l0 |]; [ | discriminate].
    apply String.eqb_eq in H; subst; reflexivity.
  - intros H; split.
    + apply table_lookup_In in H.
      change k with (fst (k, l)); apply in_map; exact H.
    + rewrite H; apply String.eqb_refl.
Qed.

Lemma labels_In t l :
  table_wf t ->
  (In l (List.map snd t) <-> exists k, table_lookup t k = Some l).
Proof.
  intros Hwf; rewrite in_map_iff; split.
  - intros [[k l0] [Hl Hin]]; simpl in Hl; subst l0.
    exists k; apply In_table_lookup; assumption.
  - intros [k Hk]; exists (k, l); split;
      [reflexivity | apply table_lookup_In, Hk].
Qed.

(** The values of the table, in order, are the labels looked up for
    its codes, in order. *)
Lemma labels_are_lookups t :
  table_wf t ->
  List.map Some (List.map snd t) = List.map (table_lookup t) (table_codes t).
Proof.
  intros Hwf; unfold table_codes; rewrite !map_map.
  apply map_ext_in; intros [k l] Hin; simpl.
  symmetry; apply In_table_lookup; assumption.
Qed.

(** The labels repeat exactly when two codes share one. *)
Lemma labels_NoDup t :
  table_wf t ->
  (NoDup (List.map snd t) <->
   forall k1 k2 l,
     table_lookup t k1 = Some l -> table_lookup t k2 = Some l -> k1 = k2).
Proof.
  intros Hwf; split.
  - intros Hnd k1 k2 l H1 H2.
    apply table_lookup_In in H1; apply table_lookup_In in H2.
    clear Hwf; induction t as [| [k v] t IH]; [contradiction | ].
    simpl in Hnd; inversion Hnd as [| ? ? Hnot Hnd']; subst.
    destruct H1 as [E1 | H1], H2 as [E2 | H2].
    + congruence.
    + injection E1 as -> ->.
      exfalso; apply Hnot; change l with (snd (k2, l)); apply in_map, H2.
    + injection E2 as -> ->.
      exfalso; apply Hnot; change l with (snd (k1, l)); apply in_map, H1.
    + exact (IH Hnd' H1 H2).
  - intros Hinj.
    assert (Hinj' : forall k1 k2 l, In (k1, l) t -> In (k2, l) t -> k1 = k2).
    { intros k1 k2 l H1 H2;
        apply (Hinj k1 k2 l); apply In_table_lookup; assumption. }
    clear Hinj; revert Hwf Hinj'; unfold table_wf, table_codes.
    induction t as [| [k v] t IH]; simpl; intros Hnd Hinj; [constructor | ].
    inversion Hnd as [| ? ? Hnot Hnd']; subst.
    constructor.
    + intros Hin; apply in_map_iff in Hin as [[k' v'] [Hv Hin]].
      simpl in Hv; subst v'.
      apply Hnot.
      rewrite (Hinj k k' v (or_introl eq_refl) (or_intror Hin)).
      change k' with (fst (k', v)); apply in_map, Hin.
    + apply IH; [exact Hnd' | ].
      intros k1 k2 l H1 H2; apply (Hinj k1 k2 l); right; assumption.
Qed.

End Tables.

(** A key that equals no code of the table is not found in it. *)
Lemma dict_find_table_unknown (t : table) (code : PyVal) :
  (forall k, In k (table_codes t) -> key_eqb (PyInt k) code = false) ->
  dict_find code (table_dict t) = None.
Proof.
  induction t as [| [k v] t IH]; simpl; intros Hun; [reflexivity | ].
  rewrite (Hun k (or_introl eq_refl)).
  apply IH; intros k' Hin; apply Hun; right; exact Hin.
Qed.

(** ** Fan speeds, identity and status *)

Section EntityFacing.

Context {C : Type} {client : RoborockClient C}.

Variables (STATE_CODE_TO_STRING FAN_SPEEDS : table).
Variables (n : PyVal) (dev : pydict) (st : PyVal).

Local Abbreviation self := (Entity n (PyDict dev) st).
Local Abbreviation duid := (descriptor_duid dev).

(** C2. For every label [L], [set_fan_speed L] makes exactly one
    request, ["set_custom_mode"], and its parameters are the list of
    the codes [k] of the fan-speed table with [table[k] = L]: each such
    code once, in table order, and nothing else.  When no code maps to
    [L] the list is empty. *)
Theorem set_fan_speed_sends_matching_codes (L : string) (c : C) :
  table_wf FAN_SPEEDS ->
  exists codes : list Z,
    requests_of (invoke (Vacuum.set_fan_speed FAN_SPEEDS L) self c)
    = [Request duid "set_custom_mode" (PyList (List.map PyInt codes)) true]
    /\ codes = codes_with_label FAN_SPEEDS L
    /\ NoDup codes
    /\ (forall k, In k codes <-> table_lookup FAN_SPEEDS k = Some L)
    /\ ((forall k, table_lookup FAN_SPEEDS k <> Some L) -> codes = []).
Proof.
  intros Hwf; exists (Vacuum.codes_of_label FAN_SPEEDS L).
  split; [ | rewrite (codes_of_label_spec L Hwf); repeat split].
  - unfold Vacuum.set_fan_speed; rewrite invoke_send_discard; reflexivity.
  - unfold codes_with_label; apply NoDup_filter, Hwf.
  - apply codes_with_label_In.
  - apply codes_with_label_In.
  - intros Hnone.
    destruct (codes_with_label FAN_SPEEDS L) as [| k ks] eqn:E; [reflexivity | ].
    exfalso; apply (Hnone k), codes_with_label_In; rewrite E; left; reflexivity.
Qed.

(** C3 (as amended). [fan_speed_list] returns
    [list(FAN_SPEEDS.values())] and calls nobody: the list has one
    entry per code of the fan-speed table, in table order, the entry at
    each place being the label the table maps the code at that place
    to.  A label is in the list exactly when some code maps to it.  The
    list is free of duplicates exactly when no two codes of the table
    share a label. *)
Theorem fan_speed_list_is_the_labels (c : C) :
  table_wf FAN_SPEEDS ->
  exists labels : list string,
    invoke (Vacuum.fan_speed_list FAN_SPEEDS) self c
    = (Returned (PyList (List.map PyStr labels)), self, c, [])
    /\ labels = List.map snd FAN_SPEEDS
    /\ List.map Some labels
       = List.map (table_lookup FAN_SPEEDS) (table_codes FAN_SPEEDS)
    /\ length labels = length FAN_SPEEDS
    /\ (forall l, In l labels <-> exists k, table_lookup FAN_SPEEDS k = Some l)
    /\ (NoDup labels <->
        forall k1 k2 l,
          table_lookup FAN_SPEEDS k1 = Some l ->
          table_lookup FAN_SPEEDS k2 = Some l -> k1 = k2).
Proof.
  intros Hwf; exists (List.map snd FAN_SPEEDS); repeat split.
  - unfold invoke, Vacuum.fan_speed_list, ret; simpl.
    rewrite map_map; reflexivity.
  - apply labels_are_lookups, Hwf.
  - apply length_map.
  - apply labels_In, Hwf.
  - apply labels_In, Hwf.
  - apply labels_NoDup, Hwf.
  - apply labels_NoDup, Hwf.
Qed.

(** What [unique_id] gives is decided by [device.get("duid")] alone. *)
Lemma invoke_unique_id (c : C) :
  invoke Vacuum.unique_id self c = (str_add "vacuum." duid, self, c, []).
Proof.
  unfold invoke, Vacuum.unique_id, bind, get_self, eval, descriptor_duid;
    simpl.
  destruct (dict_find (PyStr "duid") dev) as [v |]; simpl;
    [destruct v | ]; reflexivity.
Qed.

(** C10. On a descriptor with no ["duid"] entry, reading [unique_id]
    raises [TypeError] (a string added to [None]) and returns nothing;
    whenever it does return, the descriptor has a ["duid"] entry, a
    string, and the result is ["vacuum."] followed by it. *)
Theorem unique_id_needs_duid (c : C) :
  (dict_find (PyStr "duid") dev = None ->
   invoke Vacuum.unique_id self c = (Raised TypeError, self, c, []))
  /\ (forall v,
        result_of (invoke Vacuum.unique_id self c) = Returned v ->
        exists s, dict_find (PyStr "duid") dev = Some (PyStr s)
                  /\ v = PyStr ("vacuum." ++ s)%string).
Proof.
  rewrite invoke_unique_id; unfold descriptor_duid, result_of; simpl; split.
  - intros ->; reflexivity.
  - intros v; destruct (dict_find (PyStr "duid") dev) as [[ | | | s | | ] |];
      simpl; try discriminate.
    intros [= <-]; exists s; split; reflexivity.
Qed.

(** [status] calls nobody, and what it gives is decided by the state
    entry of the snapshot. *)
Lemma invoke_status (S : pydict) (d : PyVal) (c : C) :
  invoke (Vacuum.status STATE_CODE_TO_STRING) (Entity n d (PyDict S)) c
  = (dict_get (table_dict STATE_CODE_TO_STRING) (snapshot_state S),
     Entity n d (PyDict S), c, []).
Proof.
  unfold invoke, Vacuum.status, bind, get_self, eval, snapshot_state; simpl.
  destruct (dict_find (PyStr "state") S) as [v |]; simpl; reflexivity.
Qed.

(** A state entry that cannot be hashed makes [status] raise. *)
Lemma status_raises_on_unhashable (S : pydict) (d : PyVal) (c : C) :
  hashable (snapshot_state S) = false ->
  invoke (Vacuum.status STATE_CODE_TO_STRING) (Entity n d (PyDict S)) c
  = (Raised TypeError, Entity n d (PyDict S), c, []).
Proof.
  intros Hh; rewrite invoke_status; unfold dict_get; rewrite Hh; reflexivity.
Qed.

(** C5 (as amended). On the empty snapshot [status] returns [None].
    On every snapshot whose state entry is missing or is a hashable
    value ([None], a boolean, an integer or a string) equal to no code
    of the state-code table, [status] returns [None], raises nothing
    and calls nobody.  On every snapshot whose state entry is missing
    or hashable it raises nothing. *)
Theorem status_absent_for_unknown_code (S : pydict) (d : PyVal) (c : C) :
  invoke (Vacuum.status STATE_CODE_TO_STRING) (Entity n d (PyDict [])) c
  = (Returned PyNone, Entity n d (PyDict []), c, [])
  /\ (hashable (snapshot_state S) = true ->
      (forall k, In k (table_codes STATE_CODE_TO_STRING) ->
                 key_eqb (PyInt k) (snapshot_state S) = false) ->
      invoke (Vacuum.status STATE_CODE_TO_STRING) (Entity n d (PyDict S)) c
      = (Returned PyNone, Entity n d (PyDict S), c, []))
  /\ (hashable (snapshot_state S) = true ->
      exists v,
        invoke (Vacuum.status STATE_CODE_TO_STRING) (Entity n d (PyDict S)) c
        = (Returned v, Entity n d (PyDict S), c, [])).
Proof.
  split; [ | split].
  - rewrite invoke_status; unfold dict_get; simpl.
    rewrite dict_find_table_unknown; [reflexivity | ].
    intros k _; reflexivity.
  - intros Hh Hun; rewrite invoke_status; unfold dict_get; rewrite Hh.
    rewrite (dict_find_table_unknown _ _ Hun); reflexivity.
  - intros Hh; rewrite invoke_status; unfold dict_get; rewrite Hh.
    eexists; reflexivity.
Qed.

End EntityFacing.

(** C4. [unique_id] depends on the descriptor's duid and on nothing
    else: two entities whose descriptors give the same ["duid"] value
    get the same result, whatever their other descriptor entries, their
    names, their snapshots and the clients; it calls nobody and changes
    nothing.  When the duid is the string [s] the result is
    ["vacuum." ++ s]. *)
Theorem unique_id_depends_only_on_duid
    {C : Type} {client : RoborockClient C}
    (n1 n2 : PyVal) (dev1 dev2 : pydict) (st1 st2 : PyVal) (c1 c2 : C) :
  dict_get dev1 (PyStr "duid") = dict_get dev2 (PyStr "duid") ->
  result_of (invoke Vacuum.unique_id (Entity n1 (PyDict dev1) st1) c1)
  = result_of (invoke Vacuum.unique_id (Entity n2 (PyDict dev2) st2) c2)
  /\ invoke Vacuum.unique_id (Entity n1 (PyDict dev1) st1) c1
     = (result_of (invoke Vacuum.unique_id (Entity n1 (PyDict dev1) st1) c1),
        Entity n1 (PyDict dev1) st1, c1, [])
  /\ forall s,
       dict_get dev1 (PyStr "duid") = Returned (PyStr s) ->
       result_of (invoke Vacuum.unique_id (Entity n2 (PyDict dev2) st2) c2)
       = Returned (PyStr ("vacuum." ++ s)%string).
Proof.
  intros Hsame; rewrite !invoke_unique_id; unfold result_of; simpl.
  assert (Hd : descriptor_duid dev1 = descriptor_duid dev2).
  { unfold dict_get in Hsame; simpl in Hsame.
    unfold descriptor_duid; congruence. }
  rewrite Hd; repeat split.
  intros s Hs; unfold dict_get in Hs; simpl in Hs.
  unfold descriptor_duid in Hd; unfold descriptor_duid.
  rewrite <- Hd; injection Hs as ->; reflexivity.
Qed.

(** ** The feature flags *)

(** Adding powers of two with distinct exponents sets exactly the bits
    at those exponents. *)
Lemma pow2_disjoint_from_sum (b : nat) (bits : list nat) :
  (forall i : nat,
     Z.testbit (fold_right (fun b acc => 2 ^ Z.of_nat b + acc) 0 bits)
               (Z.of_nat i)
     = existsb (Nat.eqb i) bits) ->
  ~ In b bits ->
  Z.land (2 ^ Z.of_nat b)
         (fold_right (fun b acc => 2 ^ Z.of_nat b + acc) 0 bits) = 0.
Proof.
  intros Hbits Hnot.
  apply Z.bits_inj'; intros j Hj.
  rewrite Z.land_spec, Z.bits_0, Z.pow2_bits_eqb by lia.
  destruct (Z.eqb_spec (Z.of_nat b) j) as [<- | Hne]; [ | reflexivity].
  simpl; rewrite Hbits.
  apply Bool.not_true_is_false; intros Hex.
  apply existsb_exists in Hex as [x [Hin Hx]].
  apply Nat.eqb_eq in Hx; subst x; contradiction.
Qed.

Lemma testbit_sum_pow2 (bits : list nat) :
  NoDup bits ->
  forall i : nat,
    Z.testbit (fold_right (fun b acc => 2 ^ Z.of_nat b + acc) 0 bits)
              (Z.of_nat i)
    = existsb (Nat.eqb i) bits.
Proof.
  induction bits as [| b bits IH]; intros Hnd i; simpl.
  - apply Z.testbit_0_l.
  - inversion Hnd as [| ? ? Hnot Hnd']; subst.
    assert (Hdisj := @pow2_disjoint_from_sum b bits (IH Hnd') Hnot).
    rewrite (Z.add_nocarry_lxor _ _ Hdisj), (Z.lxor_lor _ _ Hdisj).
    rewrite Z.lor_spec, Z.pow2_bits_eqb by lia.
    rewrite (IH Hnd' i).
    f_equal.
    destruct (Nat.eqb_spec i b) as [-> | Hne].
    + apply Z.eqb_refl.
    + apply Z.eqb_neq; lia.
Qed.

(** So the sum is the bitwise or. *)
Lemma sum_pow2_is_lor (bits : list nat) :
  NoDup bits ->
  fold_right (fun b acc => 2 ^ Z.of_nat b + acc) 0 bits
  = fold_right (fun b acc => Z.lor (2 ^ Z.of_nat b) acc) 0 bits.
Proof.
  induction bits as [| b bits IH]; intros Hnd; simpl; [reflexivity | ].
  inversion Hnd as [| ? ? Hnot Hnd']; subst.
  assert (Hdisj := @pow2_disjoint_from_sum b bits (testbit_sum_pow2 Hnd') Hnot).
  rewrite (Z.add_nocarry_lxor _ _ Hdisj), (Z.lxor_lor _ _ Hdisj).
  rewrite (IH Hnd'); reflexivity.
Qed.

Lemma NoDup_map_injective {A B : Type} (f : A -> B) (xs : list A) :
  (forall x y, f x = f y -> x = y) -> NoDup xs -> NoDup (List.map f xs).
Proof.
  intros Hinj Hnd; induction Hnd as [| x xs Hnot Hnd IH]; simpl;
    constructor; [ | exact IH].
  intros Hin; apply in_map_iff in Hin as [y [Hy Hin]].
  apply Hinj in Hy; subst y; contradiction.
Qed.

Lemma supported_flags_NoDup : NoDup Vacuum.supported_flags.
Proof.
  unfold Vacuum.supported_flags.
  repeat (constructor; [simpl; intuition discriminate | ]).
  constructor.
Qed.

Lemma supported_flags_complete (f : VacuumEntityFeature) :
  In f Vacuum.supported_flags.
Proof. destruct f; simpl; tauto. Qed.

Section Features.

Context {C : Type} {client : RoborockClient C}.

Variable flag : VacuumEntityFeature -> Z.
Variable bit : VacuumEntityFeature -> nat.

Lemma fold_add_flags (fs : list VacuumEntityFeature) :
  (forall f, flag f = 2 ^ Z.of_nat (bit f)) ->
  fold_right Z.add 0 (List.map flag fs)
  = fold_right (fun b acc => 2 ^ Z.of_nat b + acc) 0 (List.map bit fs).
Proof.
  intros Hval; induction fs as [| f fs IH]; simpl;
    [reflexivity | rewrite Hval, IH; reflexivity].
Qed.

Lemma fold_lor_flags (fs : list VacuumEntityFeature) :
  (forall f, flag f = 2 ^ Z.of_nat (bit f)) ->
  fold_right Z.lor 0 (List.map flag fs)
  = fold_right (fun b acc => Z.lor (2 ^ Z.of_nat b) acc) 0 (List.map bit fs).
Proof.
  intros Hval; induction fs as [| f fs IH]; simpl;
    [reflexivity | rewrite Hval, IH; reflexivity].
Qed.

(** C8. [supported_features] returns one number, the same for every
    entity (descriptor, name, snapshot) and every client, and calls
    nobody.  The number is the sum of the fourteen flags TURN_ON,
    TURN_OFF, PAUSE, STOP, RETURN_HOME, FAN_SPEED, BATTERY, STATUS,
    SEND_COMMAND, LOCATE, CLEAN_SPOT, STATE, START and MAP; the host
    giving each flag a bit of its own, the bits set in it are exactly
    the bits of those flags, so it is their combination. *)
Theorem supported_features_is_fixed :
  exists features : Z,
    (forall (self : RoborockVacuum) (c : C),
       invoke (Vacuum.supported_features flag) self c
       = (Returned (PyInt features), self, c, []))
    /\ features = fold_right Z.add 0 (List.map flag Vacuum.supported_flags)
    /\ ((forall f, flag f = 2 ^ Z.of_nat (bit f)) ->
        (forall f g, bit f = bit g -> f = g) ->
        features = fold_right Z.lor 0 (List.map flag Vacuum.supported_flags)
        /\ forall i : nat,
             Z.testbit features (Z.of_nat i) = true
             <-> exists f, In f Vacuum.supported_flags /\ bit f = i).
Proof.
  set (features := fold_right Z.add 0 (List.map flag Vacuum.supported_flags)).
  exists features; split; [ | split; [reflexivity | ]].
  { intros self c; unfold invoke, Vacuum.supported_features, ret; simpl.
    unfold features; simpl.
    do 3 f_equal. f_equal. f_equal. lia. }
  intros Hval Hinj.
  assert (Hnd : NoDup (List.map bit Vacuum.supported_flags))
    by (apply NoDup_map_injective;
        [exact Hinj | exact supported_flags_NoDup]).
  assert (Hsum : features
            = fold_right (fun b acc => 2 ^ Z.of_nat b + acc) 0
                (List.map bit Vacuum.supported_flags)).
  { unfold features; apply fold_add_flags, Hval. }
  assert (Hbits : forall i : nat,
            Z.testbit features (Z.of_nat i)
            = existsb (Nat.eqb i) (List.map bit Vacuum.supported_flags)).
  { intros i; rewrite Hsum; apply testbit_sum_pow2, Hnd. }
  split.
  - rewrite Hsum, (sum_pow2_is_lor Hnd); symmetry.
    apply fold_lor_flags, Hval.
  - intros i; rewrite Hbits, existsb_exists; split.
    + intros [b [Hin Hb]]; apply Nat.eqb_eq in Hb; subst b.
      apply in_map_iff in Hin as [f [Hf Hin]]; eauto.
    + intros [f [Hin Hf]]; exists i; split; [ | apply Nat.eqb_refl].
      rewrite <- Hf; apply in_map, Hin.
Qed.

End Features.

(** * The properties on the sample data *)

Lemma sample_fan_speeds_wf : table_wf sample_fan_speeds.
Proof.
  unfold table_wf; simpl.
  repeat (constructor; [simpl; intuition discriminate | ]); constructor.
Qed.

Lemma shared_label_fan_speeds_wf : table_wf shared_label_fan_speeds.
Proof.
  unfold table_wf; simpl.
  repeat (constructor; [simpl; intuition discriminate | ]); constructor.
Qed.

Lemma ha_bit_injective (f g : VacuumEntityFeature) : ha_bit f = ha_bit g -> f = g.
Proof. destruct f, g; simpl; intros H; first [reflexivity | discriminate H]. Qed.

(** Construction stores the descriptor and starts from the empty
    snapshot. *)
Example init_sample_device :
  Vacuum.init (PyDict sample_device) = Returned fresh_vacuum.
Proof. reflexivity. Qed.

(** With Home Assistant's values the features are all fourteen low
    bits. *)
Example supported_features_home_assistant :
  invoke (Vacuum.supported_features ha_flag) sample_vacuum status_script
  = (Returned (PyInt 16383), sample_vacuum, status_script, []).
Proof. reflexivity. Qed.

Example set_fan_speed_turbo :
  requests_of (invoke (Vacuum.set_fan_speed sample_fan_speeds "Turbo")
                 sample_vacuum status_script)
  = [Request (PyStr "abc123") "set_custom_mode" (PyList [PyInt 103]) true].
Proof. reflexivity. Qed.

Example set_fan_speed_no_such_label :
  requests_of (invoke (Vacuum.set_fan_speed sample_fan_speeds "NoSuchLabel")
                 sample_vacuum status_script)
  = [Request (PyStr "abc123") "set_custom_mode" (PyList []) true].
Proof. reflexivity. Qed.

Example set_fan_speed_shared_label :
  requests_of (invoke (Vacuum.set_fan_speed shared_label_fan_speeds "Quiet")
                 sample_vacuum status_script)
  = [Request (PyStr "abc123") "set_custom_mode"
       (PyList [PyInt 101; PyInt 105]) true].
Proof. reflexivity. Qed.

Example status_known_code :
  invoke (Vacuum.status sample_states) sample_vacuum status_script
  = (Returned (PyStr "charging"), sample_vacuum, status_script, []).
Proof. reflexivity. Qed.

Example update_then_status :
  invoke (Vacuum.update ;; Vacuum.status sample_states) fresh_vacuum
    status_script
  = (Returned (PyStr "charging"), sample_vacuum, [Returned PyNone],
     [Request (PyStr "abc123") "get_status" PyNone true]).
Proof. reflexivity. Qed.

(** A failed refresh after a good one keeps the good snapshot. *)
Example update_twice_keeps_snapshot :
  invoke (Vacuum.update ;; Vacuum.update) fresh_vacuum status_script
  = (Returned PyNone, sample_vacuum, [],
     [Request (PyStr "abc123") "get_status" PyNone true;
      Request (PyStr "abc123") "get_status" PyNone true]).
Proof. reflexivity. Qed.

(** C1, the claim as stated fails: when the client call raises,
    the exception goes up through [update]. *)
Lemma update_raises_when_the_client_raises :
  send_request raising_script (PyStr "abc123") "get_status" PyNone true
  = (Raised (ClientError "timeout"), [])
  /\ invoke Vacuum.update sample_vacuum raising_script
     = (Raised (ClientError "timeout"), sample_vacuum, [],
        [Request (PyStr "abc123") "get_status" PyNone true]).
Proof. split; reflexivity. Qed.

Lemma update_follows_the_client_witness :
  send_request status_script (descriptor_duid sample_device)
    "get_status" PyNone true
  = (Returned (PyDict sample_snapshot), [Returned PyNone])
  /\ (exists self',
        invoke Vacuum.update (Entity (PyStr "Robo") (PyDict sample_device)
                                (PyDict [])) status_script
        = (Returned PyNone, self', [Returned PyNone],
           [Request (descriptor_duid sample_device) "get_status" PyNone true])
        /\ _name self' = PyStr "Robo"
        /\ _device self' = PyDict sample_device
        /\ (isinstance_dict (PyDict sample_snapshot) = true ->
            _status self' = PyDict sample_snapshot)
        /\ (isinstance_dict (PyDict sample_snapshot) = false ->
            self' = Entity (PyStr "Robo") (PyDict sample_device) (PyDict []))
        /\ (_status self' = PyDict sample_snapshot <->
            isinstance_dict (PyDict sample_snapshot) = true
            \/ PyDict [] = PyDict sample_snapshot))
  /\ send_request raising_script (descriptor_duid sample_device)
       "get_status" PyNone true
     = (Raised (ClientError "timeout"), [])
  /\ invoke Vacuum.update (Entity (PyStr "Robo") (PyDict sample_device)
                             (PyDict sample_snapshot)) raising_script
     = (Raised (ClientError "timeout"),
        Entity (PyStr "Robo") (PyDict sample_device) (PyDict sample_snapshot),
        [],
        [Request (descriptor_duid sample_device) "get_status" PyNone true]).
Proof.
  split; [reflexivity | split; [ | split; [reflexivity | ]]].
  - apply (proj1 (@update_follows_the_client scripted scripted_client
                    (PyStr "Robo") sample_device (PyDict []) status_script)
             (PyDict sample_snapshot) [Returned PyNone]).
    reflexivity.
  - apply (proj1 (proj2 (@update_follows_the_client scripted scripted_client
                           (PyStr "Robo") sample_device
                           (PyDict sample_snapshot) raising_script))
             (ClientError "timeout") []).
    reflexivity.
Defined.

Lemma command_operations_forward_one_keyword_witness :
  In (Vacuum.OpStart, "app_start") Vacuum.command_operations
  /\ (requests_of
        (invoke (Vacuum.call sample_states sample_fan_speeds ha_flag
                   Vacuum.OpStart)
           (Entity (PyStr "Robo") (PyDict sample_device)
              (PyDict sample_snapshot)) map_script)
      = [Request (descriptor_duid sample_device) "app_start" PyNone true]
      /\ self_after
           (invoke (Vacuum.call sample_states sample_fan_speeds ha_flag
                      Vacuum.OpStart)
              (Entity (PyStr "Robo") (PyDict sample_device)
                 (PyDict sample_snapshot)) map_script)
         = Entity (PyStr "Robo") (PyDict sample_device)
             (PyDict sample_snapshot)
      /\ forall v c',
           send_request map_script (descriptor_duid sample_device)
             "app_start" PyNone true = (Returned v, c') ->
           invoke (Vacuum.call sample_states sample_fan_speeds ha_flag
                     Vacuum.OpStart)
             (Entity (PyStr "Robo") (PyDict sample_device)
                (PyDict sample_snapshot)) map_script
           = (Returned PyNone,
              Entity (PyStr "Robo") (PyDict sample_device)
                (PyDict sample_snapshot), c',
              [Request (descriptor_duid sample_device) "app_start" PyNone
                 true])).
Proof.
  split; [simpl; tauto | ].
  apply (@command_operations_forward_one_keyword scripted scripted_client
           sample_states sample_fan_speeds ha_flag (PyStr "Robo")
           sample_device (PyDict sample_snapshot) Vacuum.OpStart "app_start"
           map_script).
  simpl; tauto.
Defined.

Lemma map_reads_are_fresh_witness :
  send_request map_script (descriptor_duid sample_device) "get_map_v1"
    PyNone true = (Returned (PyStr "map-1"), [Returned (PyStr "map-2")])
  /\ send_request [Returned (PyStr "map-2")] (descriptor_duid sample_device)
       "get_map_v1" PyNone true = (Returned (PyStr "map-2"), ([] : scripted))
  /\ (invoke Vacuum.map (Entity (PyStr "Robo") (PyDict sample_device)
                           (PyDict sample_snapshot)) map_script
      = (Returned (PyStr "map-1"),
         Entity (PyStr "Robo") (PyDict sample_device) (PyDict sample_snapshot),
         [Returned (PyStr "map-2")],
         [Request (descriptor_duid sample_device) "get_map_v1" PyNone true])
      /\ invoke Vacuum.map (Entity (PyStr "Robo") (PyDict sample_device)
                              (PyDict sample_snapshot))
           [Returned (PyStr "map-2")]
         = (Returned (PyStr "map-2"),
            Entity (PyStr "Robo") (PyDict sample_device)
              (PyDict sample_snapshot),
            ([] : scripted),
            [Request (descriptor_duid sample_device) "get_map_v1" PyNone true])
      /\ invoke (a <- Vacuum.map ;; b <- Vacuum.map ;; ret (a, b))
           (Entity (PyStr "Robo") (PyDict sample_device)
              (PyDict sample_snapshot)) map_script
         = (Returned (PyStr "map-1", PyStr "map-2"),
            Entity (PyStr "Robo") (PyDict sample_device)
              (PyDict sample_snapshot),
            ([] : scripted),
            [Request (descriptor_duid sample_device) "get_map_v1" PyNone true;
             Request (descriptor_duid sample_device) "get_map_v1" PyNone
               true])).
Proof.
  split; [reflexivity | split; [reflexivity | ]].
  apply (@map_reads_are_fresh scripted scripted_client (PyStr "Robo")
           sample_device (PyDict sample_snapshot) map_script
           [Returned (PyStr "map-2")] [] (PyStr "map-1") (PyStr "map-2"));
    reflexivity.
Defined.

Lemma set_fan_speed_sends_matching_codes_witness :
  table_wf sample_fan_speeds
  /\ exists codes : list Z,
      requests_of (invoke (Vacuum.set_fan_speed sample_fan_speeds "Turbo")
                     (Entity (PyStr "Robo") (PyDict sample_device)
                        (PyDict sample_snapshot)) status_script)
      = [Request (descriptor_duid sample_device) "set_custom_mode"
           (PyList (List.map PyInt codes)) true]
      /\ codes = codes_with_label sample_fan_speeds "Turbo"
      /\ NoDup codes
      /\ (forall k, In k codes <-> table_lookup sample_fan_speeds k = Some "Turbo")
      /\ ((forall k, table_lookup sample_fan_speeds k <> Some "Turbo") ->
          codes = []).
Proof.
  split; [exact sample_fan_speeds_wf | ].
  apply (@set_fan_speed_sends_matching_codes scripted scripted_client
           sample_fan_speeds (PyStr "Robo") sample_device
           (PyDict sample_snapshot) "Turbo" status_script).
  exact sample_fan_speeds_wf.
Defined.

(** C3, the claim as stated fails: with a table in which codes 101 and
    105 both carry the label "Quiet", [fan_speed_list] returns that
    label twice. *)
Lemma fan_speed_list_repeats_shared_label :
  table_wf shared_label_fan_speeds
  /\ invoke (Vacuum.fan_speed_list shared_label_fan_speeds) sample_vacuum
       status_script
     = (Returned (PyList [PyStr "Quiet"; PyStr "Balanced"; PyStr "Quiet"]),
        sample_vacuum, status_script, [])
  /\ ~ NoDup [PyStr "Quiet"; PyStr "Balanced"; PyStr "Quiet"].
Proof.
  split; [exact shared_label_fan_speeds_wf | split; [reflexivity | ]].
  intros Hnd; inversion Hnd as [| ? ? Hnot _]; subst.
  apply Hnot; right; left; reflexivity.
Qed.

Lemma fan_speed_list_is_the_labels_witness :
  table_wf sample_fan_speeds
  /\ exists labels : list string,
      invoke (Vacuum.fan_speed_list sample_fan_speeds)
        (Entity (PyStr "Robo") (PyDict sample_device) (PyDict sample_snapshot))
        status_script
      = (Returned (PyList (List.map PyStr labels)),
         Entity (PyStr "Robo") (PyDict sample_device) (PyDict sample_snapshot),
         status_script, [])
      /\ labels = List.map snd sample_fan_speeds
      /\ List.map Some labels
         = List.map (table_lookup sample_fan_speeds)
             (table_codes sample_fan_speeds)
      /\ length labels = length sample_fan_speeds
      /\ (forall l, In l labels <->
                    exists k, table_lookup sample_fan_speeds k = Some l)
      /\ (NoDup labels <->
          forall k1 k2 l,
            table_lookup sample_fan_speeds k1 = Some l ->
            table_lookup sample_fan_speeds k2 = Some l -> k1 = k2).
Proof.
  split; [exact sample_fan_speeds_wf | ].
  apply (@fan_speed_list_is_the_labels scripted scripted_client
           sample_fan_speeds (PyStr "Robo") sample_device
           (PyDict sample_snapshot) status_script).
  exact sample_fan_speeds_wf.
Defined.

(** The descriptor [{duid: "abc123"}] has the identity
    ["vacuum.abc123"], and so has the full sample descriptor. *)
Lemma unique_id_depends_only_on_duid_witness :
  dict_get duid_only_device (PyStr "duid")
  = dict_get sample_device (PyStr "duid")
  /\ dict_get duid_only_device (PyStr "duid") = Returned (PyStr "abc123")
  /\ result_of (invoke Vacuum.unique_id
                  (Entity PyNone (PyDict duid_only_device) (PyDict []))
                  status_script)
     = Returned (PyStr "vacuum.abc123")
  /\ result_of (invoke Vacuum.unique_id
                  (Entity (PyStr "Robo") (PyDict sample_device)
                     (PyDict sample_snapshot)) map_script)
     = Returned (PyStr "vacuum.abc123").
Proof.
  assert (Hsame : dict_get duid_only_device (PyStr "duid")
                  = dict_get sample_device (PyStr "duid")) by reflexivity.
  assert (Hduid : dict_get duid_only_device (PyStr "duid")
                  = Returned (PyStr "abc123")) by reflexivity.
  destruct (@unique_id_depends_only_on_duid scripted scripted_client
              PyNone (PyStr "Robo") duid_only_device sample_device
              (PyDict []) (PyDict sample_snapshot) status_script map_script
              Hsame) as [Heq [_ Hstr]].
  split; [exact Hsame | split; [exact Hduid | split]].
  - rewrite Heq; exact (Hstr "abc123" Hduid).
  - exact (Hstr "abc123" Hduid).
Defined.

(** C5, the claim as stated fails: a snapshot whose state entry is a
    list makes [status] raise [TypeError], in place of returning
    [None]. *)
Lemma status_raises_on_list_state :
  invoke (Vacuum.status sample_states)
    (Entity (PyStr "Robo") (PyDict sample_device) (PyDict list_state_snapshot))
    status_script
  = (Raised TypeError,
     Entity (PyStr "Robo") (PyDict sample_device) (PyDict list_state_snapshot),
     status_script, [])
  /\ result_of
       (invoke (Vacuum.status sample_states)
          (Entity (PyStr "Robo") (PyDict sample_device)
             (PyDict list_state_snapshot)) status_script)
     <> Returned PyNone.
Proof. split; [reflexivity | discriminate]. Qed.

Lemma status_absent_for_unknown_code_witness :
  hashable (snapshot_state unknown_state_snapshot) = true
  /\ (forall k, In k (table_codes sample_states) ->
                key_eqb (PyInt k) (snapshot_state unknown_state_snapshot)
                = false)
  /\ invoke (Vacuum.status sample_states)
       (Entity (PyStr "Robo") (PyDict sample_device)
          (PyDict unknown_state_snapshot)) status_script
     = (Returned PyNone,
        Entity (PyStr "Robo") (PyDict sample_device)
          (PyDict unknown_state_snapshot), status_script, []).
Proof.
  assert (Hun : forall k, In k (table_codes sample_states) ->
                  key_eqb (PyInt k) (snapshot_state unknown_state_snapshot)
                  = false).
  { simpl; intros k [<- | [<- | [<- | []]]]; reflexivity. }
  split; [reflexivity | split; [exact Hun | ]].
  apply (proj1 (proj2 (@status_absent_for_unknown_code scripted
                         scripted_client sample_states (PyStr "Robo")
                         unknown_state_snapshot (PyDict sample_device)
                         status_script)));
    [reflexivity | exact Hun].
Defined.

Lemma supported_features_is_fixed_witness :
  (forall f, ha_flag f = 2 ^ Z.of_nat (ha_bit f))
  /\ (forall f g, ha_bit f = ha_bit g -> f = g)
  /\ exists features : Z,
      (forall (self : RoborockVacuum) (c : scripted),
         invoke (Vacuum.supported_features ha_flag) self c
         = (Returned (PyInt features), self, c, []))
      /\ features = fold_right Z.add 0 (List.map ha_flag Vacuum.supported_flags)
      /\ features = fold_right Z.lor 0 (List.map ha_flag Vacuum.supported_flags)
      /\ forall i : nat,
           Z.testbit features (Z.of_nat i) = true
           <-> exists f, In f Vacuum.supported_flags /\ ha_bit f = i.
Proof.
  assert (Hval : forall f, ha_flag f = 2 ^ Z.of_nat (ha_bit f))
    by (intros f; reflexivity).
  split; [exact Hval | split; [exact ha_bit_injective | ]].
  destruct (@supported_features_is_fixed scripted scripted_client ha_flag
              ha_bit) as [features [Hfix [Hsum Hcomb]]].
  exists features.
  split; [exact Hfix | split; [exact Hsum | ]].
  exact (Hcomb Hval ha_bit_injective).
Defined.

(** C9, the claim as stated fails: [send_command] called with the
    keyword ["app_pause"] sends it too, and is not [start_pause]. *)
Lemma send_command_sends_app_pause :
  requests_of
    (invoke (Vacuum.call sample_states sample_fan_speeds ha_flag
               (Vacuum.OpSendCommand "app_pause" PyNone))
       sample_vacuum status_script)
  = [Request (PyStr "abc123") "app_pause" PyNone true]
  /\ Vacuum.OpSendCommand "app_pause" PyNone <> Vacuum.OpStartPause.
Proof. split; [reflexivity | discriminate]. Qed.

Lemma pause_is_stop_and_app_pause_senders_witness :
  In (Request (PyStr "abc123") "app_pause" PyNone true)
     (member_requests sample_states sample_fan_speeds ha_flag "roborock"
        (Send "app_pause" PyNone)
        (Entity (PyStr "Robo") (PyDict sample_device) (PyDict sample_snapshot))
        status_script)
  /\ command (Request (PyStr "abc123") "app_pause" PyNone true) = "app_pause"
  /\ (Send "app_pause" PyNone = Operation Vacuum.OpStartPause
      \/ (exists p, Send "app_pause" PyNone
                    = Operation (Vacuum.OpSendCommand "app_pause" p))
      \/ (exists p, Send "app_pause" PyNone = Send "app_pause" p)).
Proof.
  assert (Hin : In (Request (PyStr "abc123") "app_pause" PyNone true)
     (member_requests sample_states sample_fan_speeds ha_flag "roborock"
        (Send "app_pause" PyNone)
        (Entity (PyStr "Robo") (PyDict sample_device) (PyDict sample_snapshot))
        status_script))
    by (left; reflexivity).
  split; [exact Hin | split; [reflexivity | ]].
  exact (proj2 (proj2 (proj2 (proj2
           (@pause_is_stop_and_app_pause_senders scripted scripted_client
              sample_states sample_fan_speeds ha_flag "roborock"
              (PyStr "Robo") sample_device (PyDict sample_snapshot)
              status_script))))
           (Send "app_pause" PyNone)
           (Request (PyStr "abc123") "app_pause" PyNone true)
           Hin eq_refl).
Defined.

(** [send] is a member of the class too, and sends whatever keyword it
    is given. *)
Example send_sends_app_pause :
  member_requests sample_states sample_fan_speeds ha_flag "roborock"
    (Send "app_pause" PyNone) sample_vacuum status_script
  = [Request (PyStr "abc123") "app_pause" PyNone true].
Proof. reflexivity. Qed.

Lemma unique_id_needs_duid_witness :
  dict_find (PyStr "duid") no_duid_device = None
  /\ invoke Vacuum.unique_id
       (Entity (PyStr "Robo") (PyDict no_duid_device) (PyDict []))
       status_script
     = (Raised TypeError,
        Entity (PyStr "Robo") (PyDict no_duid_device) (PyDict []),
        status_script, []).
Proof.
  split; [reflexivity | ].
  apply (proj1 (@unique_id_needs_duid scripted scripted_client (PyStr "Robo")
                  no_duid_device (PyDict []) status_script)).
  reflexivity.
Defined.

(** * Further properties of the adapter *)

(** ** Reading the snapshot *)

(** A lookup in a table's dict is the lookup of the code the key
    stands for. *)
Lemma dict_find_table (t : table) (code : PyVal) :
  dict_find code (table_dict t)
  = match key_code code with
    | Some k => option_map PyStr (table_lookup t k)
    | None => None
    end.
Proof.
  induction t as [| [k' v] t IH]; simpl.
  - destruct (key_code code); reflexivity.
  - rewrite IH; destruct code as [ | b | z | s | l | items ]; simpl;
      try reflexivity.
    + destruct (k' =? bool_to_Z b); reflexivity.
    + destruct (k' =? z); reflexivity.
Qed.

Lemma dict_get_table (t : table) (code : PyVal) :
  dict_get (table_dict t) code = table_get t code.
Proof.
  unfold dict_get, table_get; rewrite dict_find_table.
  destruct (hashable code); [ | reflexivity].
  destruct (key_code code) as [k |]; [ | reflexivity].
  destruct (table_lookup t k); reflexivity.
Qed.

Section Reading.

Context {C : Type} {client : RoborockClient C}.

Variables (STATE_CODE_TO_STRING FAN_SPEEDS : table).
Variables (n d : PyVal).

(** [status] and [state] on a known code: when the snapshot's state
    entry is the integer [k] and the state-code table maps [k] to the
    label [l], both return [l]; they call nobody and change nothing. *)
Theorem status_label_of_known_code (S : pydict) (k : Z) (l : string) (c : C) :
  snapshot_state S = PyInt k ->
  table_lookup STATE_CODE_TO_STRING k = Some l ->
  invoke (Vacuum.status STATE_CODE_TO_STRING) (Entity n d (PyDict S)) c
  = (Returned (PyStr l), Entity n d (PyDict S), c, [])
  /\ invoke (Vacuum.state STATE_CODE_TO_STRING) (Entity n d (PyDict S)) c
     = (Returned (PyStr l), Entity n d (PyDict S), c, []).
Proof.
  intros Hk Hl; unfold Vacuum.state.
  rewrite invoke_status, dict_get_table; unfold table_get.
  rewrite Hk; simpl; rewrite Hl; split; reflexivity.
Qed.

(** [status] raises exactly when the state entry cannot be hashed: for
    a snapshot that is a mapping, a [TypeError] comes out if and only if
    the entry under ["state"] is a list or a mapping. *)
Theorem status_raises_iff_unhashable (S : pydict) (c : C) :
  (exists e, result_of (invoke (Vacuum.status STATE_CODE_TO_STRING)
                          (Entity n d (PyDict S)) c) = Raised e)
  <-> hashable (snapshot_state S) = false.
Proof.
  rewrite invoke_status; unfold result_of, dict_get; simpl.
  destruct (hashable (snapshot_state S)); split.
  - intros [e He]; discriminate He.
  - discriminate.
  - reflexivity.
  - intros _; exists TypeError; reflexivity.
Qed.

Lemma invoke_fan_speed (S : pydict) (c : C) :
  invoke (Vacuum.fan_speed FAN_SPEEDS) (Entity n d (PyDict S)) c
  = (table_get FAN_SPEEDS (snapshot_entry "fan_power" S),
     Entity n d (PyDict S), c, []).
Proof.
  rewrite <- dict_get_table.
  unfold invoke, Vacuum.fan_speed, bind, get_self, eval, snapshot_entry; simpl.
  destruct (dict_find (PyStr "fan_power") S) as [v |]; simpl; reflexivity.
Qed.

(** [fan_speed] on every snapshot that is a mapping: a known integer
    code gives its label, an integer code outside the table gives
    [None], a missing ["fan_power"] entry gives [None], and an entry
    that is a list or a mapping raises [TypeError].  In every case
    nobody is called and nothing changes. *)
Theorem fan_speed_by_cases (S : pydict) (c : C) :
  (forall k l,
     snapshot_entry "fan_power" S = PyInt k ->
     table_lookup FAN_SPEEDS k = Some l ->
     invoke (Vacuum.fan_speed FAN_SPEEDS) (Entity n d (PyDict S)) c
     = (Returned (PyStr l), Entity n d (PyDict S), c, []))
  /\ (forall k,
        snapshot_entry "fan_power" S = PyInt k ->
        table_lookup FAN_SPEEDS k = None ->
        invoke (Vacuum.fan_speed FAN_SPEEDS) (Entity n d (PyDict S)) c
        = (Returned PyNone, Entity n d (PyDict S), c, []))
  /\ (dict_find (PyStr "fan_power") S = None ->
      invoke (Vacuum.fan_speed FAN_SPEEDS) (Entity n d (PyDict S)) c
      = (Returned PyNone, Entity n d (PyDict S), c, []))
  /\ (hashable (snapshot_entry "fan_power" S) = false ->
      invoke (Vacuum.fan_speed FAN_SPEEDS) (Entity n d (PyDict S)) c
      = (Raised TypeError, Entity n d (PyDict S), c, [])).
Proof.
  rewrite invoke_fan_speed; unfold table_get; repeat split.
  - intros k l -> Hl; simpl; rewrite Hl; reflexivity.
  - intros k -> Hl; simpl; rewrite Hl; reflexivity.
  - intros Hm; unfold snapshot_entry; rewrite Hm; reflexivity.
  - intros ->; reflexivity.
Qed.

Lemma invoke_battery_level (S : pydict) (c : C) :
  invoke Vacuum.battery_level (Entity n d (PyDict S)) c
  = (Returned (snapshot_entry "battery" S), Entity n d (PyDict S), c, []).
Proof.
  unfold invoke, Vacuum.battery_level, bind, get_self, eval, snapshot_entry,
    py_get, dict_get; simpl.
  destruct (dict_find (PyStr "battery") S) as [v |]; reflexivity.
Qed.

End Reading.

(** ** What every operation does to the client and to the entity *)

Section Operations.

Context {C : Type} {client : RoborockClient C}.

Variables (STATE_CODE_TO_STRING FAN_SPEEDS : table).
Variable flag : VacuumEntityFeature -> Z.

Local Abbreviation call := (Vacuum.call STATE_CODE_TO_STRING FAN_SPEEDS flag).

(** [send] on any entity: the descriptor has to be a mapping for the
    request to be made at all. *)
Lemma invoke_send_any (cmd : string) (p : PyVal) (self : RoborockVacuum) (c : C) :
  invoke (Vacuum.send cmd p) self c =
  match py_get (_device self) (PyStr "duid") with
  | Returned duid =>
      (fst (send_request c duid cmd p true), self,
       snd (send_request c duid cmd p true),
       [Request duid cmd p true])
  | Raised e => (Raised e, self, c, [])
  end.
Proof.
  unfold invoke, Vacuum.send, bind, get_self, eval, call_client; simpl.
  destruct (py_get (_device self) (PyStr "duid")) as [duid | e]; simpl;
    [destruct (send_request c duid cmd p true) | ]; reflexivity.
Qed.








(** The members that only read leave the client as it was. *)
Theorem reads_leave_the_client
    (op : Vacuum.operation) (self : RoborockVacuum) (c : C) :
  Vacuum.sent_keyword op = None ->
  client_after (invoke (call op) self c) = c.
Proof.
  destruct op; simpl Vacuum.sent_keyword; try discriminate; intros _;
    step_method; split_answers; reflexivity.
Qed.

(** Nothing catches what the client raises: when the client raises on
    the request of an operation, the operation raises the same
    exception, the request has been made, and the entity (its snapshot
    included) is as before. *)
Theorem client_exception_goes_up
    (op : Vacuum.operation) (self : RoborockVacuum) (c c' : C)
    (kw : string) (duid : PyVal) (e : exn) :
  Vacuum.sent_keyword op = Some kw ->
  py_get (_device self) (PyStr "duid") = Returned duid ->
  send_request c duid kw (Vacuum.sent_params FAN_SPEEDS op) true
  = (Raised e, c') ->
  invoke (call op) self c
  = (Raised e, self, c',
     [Request duid kw (Vacuum.sent_params FAN_SPEEDS op) true]).
Proof.
  intros Hkw Hduid Hc.
  destruct op; simpl in Hkw; try discriminate; injection Hkw as <-;
    simpl Vacuum.call; simpl Vacuum.sent_params in *;
    unfold Vacuum.update, Vacuum.map, Vacuum.start, Vacuum.pause, Vacuum.stop,
      Vacuum.return_to_base, Vacuum.clean_spot, Vacuum.locate,
      Vacuum.set_fan_speed, Vacuum.send_command, Vacuum.start_pause,
      Vacuum.codes_of_label;
    rewrite ?invoke_bind, ?invoke_send_any, Hduid, Hc; reflexivity.
Qed.

(** A refresh followed by any other member: when the client answers
    the status request with the mapping [d], the member runs on the
    entity whose snapshot is [d], nothing of the prior snapshot being
    left; when it answers with anything else, the member runs on the
    entity as it was. *)
Theorem update_then_member
    {A : Type} (m : method A) (self : RoborockVacuum) (c c' : C)
    (duid v : PyVal) :
  py_get (_device self) (PyStr "duid") = Returned duid ->
  send_request c duid "get_status" PyNone true = (Returned v, c') ->
  invoke (Vacuum.update ;; m) self c
  = (let '(o, s, c2, t) :=
       invoke m (if isinstance_dict v then set_status self v else self) c' in
     (o, s, c2, Request duid "get_status" PyNone true :: t)).
Proof.
  intros Hduid Hc.
  rewrite invoke_bind; unfold Vacuum.update at 1.
  rewrite invoke_bind, invoke_send_any, Hduid, Hc; simpl.
  destruct v; simpl;
    match goal with
    | |- context [invoke m ?s c'] =>
        destruct (invoke m s c') as [[[o s2] c2] t2]; reflexivity
    end.
Qed.




(** [send_command] can stand in for every command operation: called
    with the operation's keyword and no parameters it makes the same
    request, leaves the same client and the same entity, and raises
    what the operation raises; the one difference is that it returns
    the client's answer where the operation returns [None]. *)
Theorem send_command_subsumes_commands
    (op : Vacuum.operation) (kw : string) (self : RoborockVacuum) (c : C) :
  In (op, kw) Vacuum.command_operations ->
  requests_of (invoke (call op) self c)
  = requests_of (invoke (Vacuum.send_command kw PyNone) self c)
  /\ client_after (invoke (call op) self c)
     = client_after (invoke (Vacuum.send_command kw PyNone) self c)
  /\ self_after (invoke (call op) self c)
     = self_after (invoke (Vacuum.send_command kw PyNone) self c)
  /\ result_of (invoke (call op) self c)
     = match result_of (invoke (Vacuum.send_command kw PyNone) self c) with
       | Returned _ => Returned PyNone
       | Raised e => Raised e
       end.
Proof.
  intros Hin.
  assert (Hcall : call op = (Vacuum.send kw PyNone ;; ret PyNone)).
  { simpl in Hin.
    repeat (destruct Hin as [Hin | Hin];
            [injection Hin as <- <-; reflexivity | ]).
    contradiction. }
  rewrite Hcall; unfold Vacuum.send_command.
  rewrite invoke_bind, invoke_send_any.
  destruct (py_get (_device self) (PyStr "duid")) as [duid | e]; simpl;
    [destruct (send_request c duid kw PyNone true) as [[v | e] c1] | ];
    simpl; repeat split; reflexivity.
Qed.

End Operations.

(** ** Fan speeds: what is offered, reported and set *)

(** A duplicate-free list whose members all equal [k] and which holds
    [k] is [[k]]. *)
Lemma NoDup_all_equal (k : Z) (ks : list Z) :
  NoDup ks -> In k ks -> (forall k', In k' ks -> k' = k) -> ks = [k].
Proof.
  intros Hnd Hin Hall.
  destruct ks as [| a ks]; [contradiction | ].
  assert (a = k) by (apply Hall; left; reflexivity); subst a.
  destruct ks as [| b ks]; [reflexivity | ].
  assert (b = k) by (apply Hall; right; left; reflexivity); subst b.
  inversion Hnd as [| ? ? Hnot _]; subst.
  exfalso; apply Hnot; left; reflexivity.
Qed.

Lemma codes_of_label_In (t : table) (l : string) (k : Z) :
  In k (Vacuum.codes_of_label t l) <-> In (k, l) t.
Proof.
  unfold Vacuum.codes_of_label; rewrite in_map_iff; split.
  - intros [[k' l'] [Hk Hin]]; simpl in Hk; subst k'.
    apply filter_In in Hin as [Hin Hl]; simpl in Hl.
    apply String.eqb_eq in Hl; subst l'; exact Hin.
  - intros Hin; exists (k, l); split; [reflexivity | ].
    apply filter_In; split; [exact Hin | apply String.eqb_refl].
Qed.

Section FanSpeeds.

Context {C : Type} {client : RoborockClient C}.

Variable FAN_SPEEDS : table.
Variables (n : PyVal) (dev : pydict) (st : PyVal).

Local Abbreviation self := (Entity n (PyDict dev) st).
Local Abbreviation duid := (descriptor_duid dev).

(** Every fan speed that [fan_speed_list] offers can be set: for a
    label in the list, [set_fan_speed] sends a parameter list that is
    not empty and holds only codes the table maps to that label.  For
    a label that is not in the list it sends the empty list. *)
Theorem offered_fan_speed_is_settable (l : string) (c : C) (ls : list PyVal) :
  result_of (invoke (Vacuum.fan_speed_list FAN_SPEEDS) self c)
  = Returned (PyList ls) ->
  exists codes : list Z,
    requests_of (invoke (Vacuum.set_fan_speed FAN_SPEEDS l) self c)
    = [Request duid "set_custom_mode" (PyList (List.map PyInt codes)) true]
    /\ (forall k, In k codes -> In (k, l) FAN_SPEEDS)
    /\ (In (PyStr l) ls -> codes <> [])
    /\ (~ In (PyStr l) ls -> codes = []).
Proof.
  intros Hls.
  assert (Hlabels : ls = List.map (fun kv => PyStr (snd kv)) FAN_SPEEDS).
  { unfold invoke, Vacuum.fan_speed_list, ret, result_of in Hls;
      simpl in Hls; congruence. }
  subst ls; clear Hls.
  exists (Vacuum.codes_of_label FAN_SPEEDS l); repeat split.
  - unfold Vacuum.set_fan_speed; rewrite invoke_send_discard; reflexivity.
  - intros k Hk; apply codes_of_label_In, Hk.
  - intros Hin Hnil.
    apply in_map_iff in Hin as [[k l'] [Hl Hin]]; simpl in Hl.
    injection Hl as ->.
    apply codes_of_label_In in Hin; rewrite Hnil in Hin; contradiction.
  - intros Hnot.
    destruct (Vacuum.codes_of_label FAN_SPEEDS l) as [| k ks] eqn:E;
      [reflexivity | ].
    exfalso; apply Hnot.
    assert (Hin : In (k, l) FAN_SPEEDS)
      by (apply codes_of_label_In; rewrite E; left; reflexivity).
    apply in_map_iff; exists (k, l); split; [reflexivity | exact Hin].
Qed.

(** Setting the speed the vacuum reports: when the snapshot's
    ["fan_power"] is the integer [k] and [fan_speed] reads the label
    [l] for it, [set_fan_speed l] sends a parameter list that contains
    [k]; when no other code of the table carries the label [l], the
    list is [[k]] alone. *)
Theorem reported_fan_speed_can_be_set_back
    (S : pydict) (k : Z) (l : string) (c : C) :
  table_wf FAN_SPEEDS ->
  snapshot_entry "fan_power" S = PyInt k ->
  result_of (invoke (Vacuum.fan_speed FAN_SPEEDS)
               (Entity n (PyDict dev) (PyDict S)) c)
  = Returned (PyStr l) ->
  exists codes : list Z,
    requests_of (invoke (Vacuum.set_fan_speed FAN_SPEEDS l)
                   (Entity n (PyDict dev) (PyDict S)) c)
    = [Request duid "set_custom_mode" (PyList (List.map PyInt codes)) true]
    /\ In k codes
    /\ ((forall k', table_lookup FAN_SPEEDS k' = Some l -> k' = k) ->
        codes = [k]).
Proof.
  intros Hwf Hk; rewrite invoke_fan_speed; unfold result_of, table_get; simpl.
  rewrite Hk; simpl.
  destruct (table_lookup FAN_SPEEDS k) as [l' |] eqn:Hl; [ | discriminate].
  intros [= ->].
  exists (Vacuum.codes_of_label FAN_SPEEDS l).
  assert (Hin : In k (Vacuum.codes_of_label FAN_SPEEDS l)).
  { apply codes_of_label_In, table_lookup_In, Hl. }
  repeat split.
  - unfold Vacuum.set_fan_speed; rewrite invoke_send_discard; reflexivity.
  - exact Hin.
  - intros Honly; apply NoDup_all_equal.
    + rewrite (codes_of_label_spec l Hwf).
      unfold codes_with_label; apply NoDup_filter, Hwf.
    + exact Hin.
    + intros k' Hk'; apply Honly.
      apply In_table_lookup; [exact Hwf | apply codes_of_label_In, Hk'].
Qed.

End FanSpeeds.

(** ** Identity, registration and construction *)

Section Identity.

Context {C : Type} {client : RoborockClient C}.

Variables (STATE_CODE_TO_STRING FAN_SPEEDS : table).
Variable DOMAIN : string.

(** Different devices get different identities: when [unique_id]
    returns the same string for two entities, their descriptors have
    the same duid, and it is a string. *)
Theorem unique_id_is_injective
    (n1 n2 : PyVal) (dev1 dev2 : pydict) (st1 st2 : PyVal) (c1 c2 : C)
    (v : PyVal) :
  result_of (invoke Vacuum.unique_id (Entity n1 (PyDict dev1) st1) c1)
  = Returned v ->
  result_of (invoke Vacuum.unique_id (Entity n2 (PyDict dev2) st2) c2)
  = Returned v ->
  descriptor_duid dev1 = descriptor_duid dev2
  /\ exists s, descriptor_duid dev1 = PyStr s.
Proof.
  rewrite !invoke_unique_id; unfold result_of; simpl.
  destruct (descriptor_duid dev1) as [ | | | s1 | | ]; simpl; try discriminate.
  destruct (descriptor_duid dev2) as [ | | | s2 | | ]; simpl; try discriminate;
    try (intros _; discriminate).
  intros [= <-] [= ->]; split; [reflexivity | eauto].
Qed.

Lemma invoke_device_info (n : PyVal) (dev : pydict) (st : PyVal) (c : C) :
  invoke (Vacuum.device_info DOMAIN) (Entity n (PyDict dev) st) c
  = (if hashable (descriptor_duid dev)
     then Returned {| Vacuum.info_name := n;
                      Vacuum.identifiers := [(DOMAIN, descriptor_duid dev)];
                      Vacuum.manufacturer := "Roborock";
                      Vacuum.model := descriptor_entry "model" dev |}
     else Raised TypeError,
     Entity n (PyDict dev) st, c, []).
Proof.
  unfold invoke, Vacuum.device_info, bind, get_self, eval, ret,
    descriptor_duid, descriptor_entry, py_get, dict_get; simpl.
  destruct (dict_find (PyStr "duid") dev) as [v |]; simpl;
    [destruct (hashable v) | ]; simpl;
    destruct (dict_find (PyStr "model") dev); reflexivity.
Qed.

(** A descriptor without a duid: the device is still registered, under
    the identifier [(DOMAIN, None)], and requests are still sent, to the
    device id [None]; only [unique_id] fails, with [TypeError]. *)
Theorem missing_duid_is_not_checked
    (n : PyVal) (dev : pydict) (st : PyVal) (cmd : string) (p : PyVal) (c : C) :
  dict_find (PyStr "duid") dev = None ->
  (exists info,
      result_of (invoke (Vacuum.device_info DOMAIN) (Entity n (PyDict dev) st) c)
      = Returned info
      /\ Vacuum.identifiers info = [(DOMAIN, PyNone)])
  /\ requests_of (invoke (Vacuum.send cmd p) (Entity n (PyDict dev) st) c)
     = [Request PyNone cmd p true]
  /\ result_of (invoke Vacuum.unique_id (Entity n (PyDict dev) st) c)
     = Raised TypeError.
Proof.
  intros Hno.
  rewrite invoke_device_info, invoke_send, invoke_unique_id.
  unfold descriptor_duid, result_of, requests_of; rewrite Hno; simpl.
  repeat split; eexists; split; reflexivity.
Qed.

(** [device_info] identifies the device by its duid: two entities get
    the same identifiers exactly when their descriptors give the same
    duid (the duid being hashable), and no client is called. *)
Theorem device_info_identifies_by_duid
    (n1 n2 : PyVal) (dev1 dev2 : pydict) (st1 st2 : PyVal) (c1 c2 : C)
    (i1 i2 : Vacuum.DeviceInfo) :
  invoke (Vacuum.device_info DOMAIN) (Entity n1 (PyDict dev1) st1) c1
  = (Returned i1, Entity n1 (PyDict dev1) st1, c1, []) ->
  invoke (Vacuum.device_info DOMAIN) (Entity n2 (PyDict dev2) st2) c2
  = (Returned i2, Entity n2 (PyDict dev2) st2, c2, []) ->
  (Vacuum.identifiers i1 = Vacuum.identifiers i2
   <-> descriptor_duid dev1 = descriptor_duid dev2)
  /\ Vacuum.manufacturer i1 = "Roborock"
  /\ Vacuum.info_name i1 = n1.
Proof.
  rewrite !invoke_device_info.
  destruct (hashable (descriptor_duid dev1)); [ | discriminate].
  destruct (hashable (descriptor_duid dev2)); [ | discriminate].
  intros [= <-] [= <-]; simpl; repeat split; congruence.
Qed.

(** The constructors of a list of descriptors. *)
Lemma construct_all_dicts (devices : list PyVal) :
  Forall (fun v => isinstance_dict v = true) devices ->
  exists entities,
    Vacuum.construct_all devices = Returned entities
    /\ List.map _device entities = devices
    /\ Forall (fun e => _status e = PyDict []
                        /\ py_get (_device e) (PyStr "name")
                           = Returned (_name e)) entities.
Proof.
  induction 1 as [| v devices Hv _ IH]; simpl.
  - exists []; repeat split; constructor.
  - destruct IH as [entities [-> [Hdev Hall]]].
    destruct v as [ | | | | | d]; try discriminate Hv.
    unfold Vacuum.init; simpl.
    eexists; repeat split; simpl.
    + rewrite Hdev; reflexivity.
    + constructor; [split; reflexivity | exact Hall].
Qed.

Lemma construct_all_not_dict (devices : list PyVal) :
  Exists (fun v => isinstance_dict v = false) devices ->
  Vacuum.construct_all devices = Raised AttributeError.
Proof.
  induction 1 as [v devices Hv | v devices _ IH]; simpl.
  - destruct v; try discriminate Hv; reflexivity.
  - unfold Vacuum.init.
    destruct (py_get v (PyStr "name")) as [nm | e] eqn:Hn.
    + rewrite IH; reflexivity.
    + destruct v; simpl in Hn; try (injection Hn as <-; reflexivity).
      unfold dict_get in Hn; simpl in Hn; discriminate.
Qed.

(** Setting up a config entry whose coordinator is registered: when
    every device of the api is a mapping, one entity per device is
    added, in the order of the devices, each holding its descriptor,
    the descriptor's name and the empty snapshot; when some device is
    not a mapping the set-up raises [AttributeError] and adds no
    entity at all. *)
Theorem async_setup_entry_adds_one_entity_per_device
    (hass_data : list (string * list (string * list PyVal)))
    (entry_id : string) (entries : list (string * list PyVal))
    (devices : list PyVal) :
  lookup_str DOMAIN hass_data = Some entries ->
  lookup_str entry_id entries = Some devices ->
  (Forall (fun v => isinstance_dict v = true) devices ->
   exists entities,
     Vacuum.async_setup_entry DOMAIN hass_data entry_id
     = Vacuum.Added entities
     /\ List.map _device entities = devices
     /\ Forall (fun e => _status e = PyDict []
                         /\ py_get (_device e) (PyStr "name")
                            = Returned (_name e)) entities)
  /\ (Exists (fun v => isinstance_dict v = false) devices ->
      Vacuum.async_setup_entry DOMAIN hass_data entry_id
      = Vacuum.SetupRaised AttributeError).
Proof.
  intros Hd He; unfold Vacuum.async_setup_entry; rewrite Hd, He; split.
  - intros Hall.
    destruct (construct_all_dicts Hall) as [entities [-> [Hdev Hent]]].
    exists entities; repeat split; assumption.
  - intros Hex; rewrite (construct_all_not_dict Hex); reflexivity.
Qed.

(** A vacuum just constructed from a mapping has nothing to report:
    with the empty snapshot, [status], [state], [battery_level] and
    [fan_speed] all return [None], whatever the tables hold, and no
    request is made. *)
Theorem constructed_entity_reports_nothing (dev : pydict) (c : C) :
  exists self,
    Vacuum.init (PyDict dev) = Returned self
    /\ _device self = PyDict dev
    /\ _status self = PyDict []
    /\ invoke (Vacuum.status STATE_CODE_TO_STRING) self c
       = (Returned PyNone, self, c, [])
    /\ invoke (Vacuum.state STATE_CODE_TO_STRING) self c
       = (Returned PyNone, self, c, [])
    /\ invoke Vacuum.battery_level self c = (Returned PyNone, self, c, [])
    /\ invoke (Vacuum.fan_speed FAN_SPEEDS) self c
       = (Returned PyNone, self, c, []).
Proof.
  unfold Vacuum.init, Vacuum.state; simpl.
  eexists; split; [reflexivity | ].
  rewrite invoke_status, invoke_fan_speed, invoke_battery_level.
  rewrite dict_get_table; repeat split.
Qed.

End Identity.

(** * The further properties on the sample data *)

Lemma status_label_of_known_code_witness :
  snapshot_state sample_snapshot = PyInt 8
  /\ table_lookup sample_states 8 = Some "charging"
  /\ invoke (Vacuum.status sample_states)
       (Entity (PyStr "Robo") (PyDict sample_device) (PyDict sample_snapshot))
       status_script
     = (Returned (PyStr "charging"),
        Entity (PyStr "Robo") (PyDict sample_device) (PyDict sample_snapshot),
        status_script, [])
  /\ invoke (Vacuum.state sample_states)
       (Entity (PyStr "Robo") (PyDict sample_device) (PyDict sample_snapshot))
       status_script
     = (Returned (PyStr "charging"),
        Entity (PyStr "Robo") (PyDict sample_device) (PyDict sample_snapshot),
        status_script, []).
Proof.
  split; [reflexivity | split; [reflexivity | ]].
  apply (@status_label_of_known_code scripted scripted_client sample_states
           (PyStr "Robo") (PyDict sample_device) sample_snapshot 8 "charging"
           status_script); reflexivity.
Defined.

Lemma status_raises_iff_unhashable_witness :
  hashable (snapshot_state list_state_snapshot) = false
  /\ exists e,
      result_of (invoke (Vacuum.status sample_states)
                   (Entity (PyStr "Robo") (PyDict sample_device)
                      (PyDict list_state_snapshot)) status_script)
      = Raised e.
Proof.
  split; [reflexivity | ].
  apply (proj2 (@status_raises_iff_unhashable scripted scripted_client
                  sample_states (PyStr "Robo") (PyDict sample_device)
                  list_state_snapshot status_script)).
  reflexivity.
Defined.

Lemma fan_speed_by_cases_witness :
  snapshot_entry "fan_power" sample_snapshot = PyInt 102
  /\ table_lookup sample_fan_speeds 102 = Some "Balanced"
  /\ invoke (Vacuum.fan_speed sample_fan_speeds)
       (Entity (PyStr "Robo") (PyDict sample_device) (PyDict sample_snapshot))
       status_script
     = (Returned (PyStr "Balanced"),
        Entity (PyStr "Robo") (PyDict sample_device) (PyDict sample_snapshot),
        status_script, []).
Proof.
  split; [reflexivity | split; [reflexivity | ]].
  apply (proj1 (@fan_speed_by_cases scripted scripted_client sample_fan_speeds
                  (PyStr "Robo") (PyDict sample_device) sample_snapshot
                  status_script) 102 "Balanced"); reflexivity.
Defined.


Lemma reads_leave_the_client_witness :
  Vacuum.sent_keyword Vacuum.OpStatus = None
  /\ client_after (invoke (Vacuum.call sample_states sample_fan_speeds ha_flag
                             Vacuum.OpStatus) sample_vacuum status_script)
     = status_script.
Proof.
  split; [reflexivity | ].
  apply (@reads_leave_the_client scripted scripted_client sample_states
           sample_fan_speeds ha_flag Vacuum.OpStatus sample_vacuum
           status_script).
  reflexivity.
Defined.

Lemma client_exception_goes_up_witness :
  Vacuum.sent_keyword Vacuum.OpUpdate = Some "get_status"
  /\ py_get (_device sample_vacuum) (PyStr "duid") = Returned (PyStr "abc123")
  /\ send_request raising_script (PyStr "abc123") "get_status"
       (Vacuum.sent_params sample_fan_speeds Vacuum.OpUpdate) true
     = (Raised (ClientError "timeout"), [])
  /\ invoke (Vacuum.call sample_states sample_fan_speeds ha_flag
               Vacuum.OpUpdate) sample_vacuum raising_script
     = (Raised (ClientError "timeout"), sample_vacuum, [],
        [Request (PyStr "abc123") "get_status"
           (Vacuum.sent_params sample_fan_speeds Vacuum.OpUpdate) true]).
Proof.
  split; [reflexivity | split; [reflexivity | split; [reflexivity | ]]].
  apply (@client_exception_goes_up scripted scripted_client sample_states
           sample_fan_speeds ha_flag Vacuum.OpUpdate sample_vacuum
           raising_script [] "get_status" (PyStr "abc123")
           (ClientError "timeout")); reflexivity.
Defined.

Lemma update_then_member_witness :
  py_get (_device fresh_vacuum) (PyStr "duid") = Returned (PyStr "abc123")
  /\ send_request status_script (PyStr "abc123") "get_status" PyNone true
     = (Returned (PyDict sample_snapshot), [Returned PyNone])
  /\ invoke (Vacuum.update ;; Vacuum.battery_level) fresh_vacuum status_script
     = (let '(o, s, c2, t) :=
          invoke Vacuum.battery_level
            (if isinstance_dict (PyDict sample_snapshot)
             then set_status fresh_vacuum (PyDict sample_snapshot)
             else fresh_vacuum) [Returned PyNone] in
        (o, s, c2, Request (PyStr "abc123") "get_status" PyNone true :: t)).
Proof.
  split; [reflexivity | split; [reflexivity | ]].
  apply (@update_then_member scripted scripted_client PyVal
           Vacuum.battery_level fresh_vacuum status_script [Returned PyNone]
           (PyStr "abc123") (PyDict sample_snapshot)); reflexivity.
Defined.



Lemma send_command_subsumes_commands_witness :
  In (Vacuum.OpReturnToBase, "app_charge") Vacuum.command_operations
  /\ requests_of (invoke (Vacuum.call sample_states sample_fan_speeds ha_flag
                            Vacuum.OpReturnToBase) sample_vacuum map_script)
     = requests_of (invoke (Vacuum.send_command "app_charge" PyNone)
                      sample_vacuum map_script).
Proof.
  split; [simpl; tauto | ].
  apply (@send_command_subsumes_commands scripted scripted_client
           sample_states sample_fan_speeds ha_flag Vacuum.OpReturnToBase
           "app_charge" sample_vacuum map_script).
  simpl; tauto.
Defined.

Lemma offered_fan_speed_is_settable_witness :
  result_of (invoke (Vacuum.fan_speed_list sample_fan_speeds)
               (Entity (PyStr "Robo") (PyDict sample_device)
                  (PyDict sample_snapshot)) status_script)
  = Returned (PyList [PyStr "Silent"; PyStr "Balanced"; PyStr "Turbo";
                      PyStr "Max"])
  /\ exists codes : list Z,
      requests_of (invoke (Vacuum.set_fan_speed sample_fan_speeds "Max")
                     (Entity (PyStr "Robo") (PyDict sample_device)
                        (PyDict sample_snapshot)) status_script)
      = [Request (descriptor_duid sample_device) "set_custom_mode"
           (PyList (List.map PyInt codes)) true]
      /\ (forall k, In k codes -> In (k, "Max") sample_fan_speeds)
      /\ (In (PyStr "Max")
            [PyStr "Silent"; PyStr "Balanced"; PyStr "Turbo"; PyStr "Max"] ->
          codes <> [])
      /\ (~ In (PyStr "Max")
            [PyStr "Silent"; PyStr "Balanced"; PyStr "Turbo"; PyStr "Max"] ->
          codes = []).
Proof.
  split; [reflexivity | ].
  apply (@offered_fan_speed_is_settable scripted scripted_client
           sample_fan_speeds (PyStr "Robo") sample_device
           (PyDict sample_snapshot) "Max" status_script
           [PyStr "Silent"; PyStr "Balanced"; PyStr "Turbo"; PyStr "Max"]).
  reflexivity.
Defined.

Lemma reported_fan_speed_can_be_set_back_witness :
  table_wf sample_fan_speeds
  /\ snapshot_entry "fan_power" sample_snapshot = PyInt 102
  /\ result_of (invoke (Vacuum.fan_speed sample_fan_speeds)
                  (Entity (PyStr "Robo") (PyDict sample_device)
                     (PyDict sample_snapshot)) status_script)
     = Returned (PyStr "Balanced")
  /\ exists codes : list Z,
      requests_of (invoke (Vacuum.set_fan_speed sample_fan_speeds "Balanced")
                     (Entity (PyStr "Robo") (PyDict sample_device)
                        (PyDict sample_snapshot)) status_script)
      = [Request (descriptor_duid sample_device) "set_custom_mode"
           (PyList (List.map PyInt codes)) true]
      /\ In 102 codes
      /\ ((forall k', table_lookup sample_fan_speeds k' = Some "Balanced" ->
                      k' = 102) ->
          codes = [102]).
Proof.
  split; [exact sample_fan_speeds_wf | split; [reflexivity | ]].
  split; [reflexivity | ].
  apply (@reported_fan_speed_can_be_set_back scripted scripted_client
           sample_fan_speeds (PyStr "Robo") sample_device sample_snapshot
           102 "Balanced" status_script);
    [exact sample_fan_speeds_wf | reflexivity | reflexivity].
Defined.

Lemma unique_id_is_injective_witness :
  result_of (invoke Vacuum.unique_id
               (Entity PyNone (PyDict duid_only_device) (PyDict []))
               status_script)
  = Returned (PyStr "vacuum.abc123")
  /\ result_of (invoke Vacuum.unique_id
                  (Entity (PyStr "Robo") (PyDict sample_device)
                     (PyDict sample_snapshot)) map_script)
     = Returned (PyStr "vacuum.abc123")
  /\ descriptor_duid duid_only_device = descriptor_duid sample_device
  /\ exists s, descriptor_duid duid_only_device = PyStr s.
Proof.
  split; [reflexivity | split; [reflexivity | ]].
  apply (@unique_id_is_injective scripted scripted_client PyNone (PyStr "Robo")
           duid_only_device sample_device (PyDict []) (PyDict sample_snapshot)
           status_script map_script (PyStr "vacuum.abc123")); reflexivity.
Defined.

Lemma missing_duid_is_not_checked_witness :
  dict_find (PyStr "duid") no_duid_device = None
  /\ (exists info,
        result_of (invoke (Vacuum.device_info "roborock")
                     (Entity (PyStr "Robo") (PyDict no_duid_device) (PyDict []))
                     status_script)
        = Returned info
        /\ Vacuum.identifiers info = [("roborock", PyNone)])
  /\ requests_of (invoke (Vacuum.send "app_start" PyNone)
                    (Entity (PyStr "Robo") (PyDict no_duid_device) (PyDict []))
                    status_script)
     = [Request PyNone "app_start" PyNone true]
  /\ result_of (invoke Vacuum.unique_id
                  (Entity (PyStr "Robo") (PyDict no_duid_device) (PyDict []))
                  status_script)
     = Raised TypeError.
Proof.
  split; [reflexivity | ].
  apply (@missing_duid_is_not_checked scripted scripted_client "roborock"
           (PyStr "Robo") no_duid_device (PyDict []) "app_start" PyNone
           status_script).
  reflexivity.
Defined.

Lemma device_info_identifies_by_duid_witness :
  invoke (Vacuum.device_info "roborock")
    (Entity PyNone (PyDict duid_only_device) (PyDict [])) status_script
  = (Returned {| Vacuum.info_name := PyNone;
                 Vacuum.identifiers := [("roborock", PyStr "abc123")];
                 Vacuum.manufacturer := "Roborock";
                 Vacuum.model := PyNone |},
     Entity PyNone (PyDict duid_only_device) (PyDict []), status_script, [])
  /\ invoke (Vacuum.device_info "roborock")
       (Entity (PyStr "Robo") (PyDict sample_device) (PyDict sample_snapshot))
       map_script
     = (Returned {| Vacuum.info_name := PyStr "Robo";
                    Vacuum.identifiers := [("roborock", PyStr "abc123")];
                    Vacuum.manufacturer := "Roborock";
                    Vacuum.model := PyStr "roborock.vacuum.s5" |},
        Entity (PyStr "Robo") (PyDict sample_device) (PyDict sample_snapshot),
        map_script, [])
  /\ ([("roborock", PyStr "abc123")] = [("roborock", PyStr "abc123")]
      <-> descriptor_duid duid_only_device = descriptor_duid sample_device).
Proof.
  split; [reflexivity | split; [reflexivity | ]].
  apply (@device_info_identifies_by_duid scripted scripted_client "roborock"
           PyNone (PyStr "Robo") duid_only_device sample_device
           (PyDict []) (PyDict sample_snapshot) status_script map_script
           {| Vacuum.info_name := PyNone;
              Vacuum.identifiers := [("roborock", PyStr "abc123")];
              Vacuum.manufacturer := "Roborock";
              Vacuum.model := PyNone |}
           {| Vacuum.info_name := PyStr "Robo";
              Vacuum.identifiers := [("roborock", PyStr "abc123")];
              Vacuum.manufacturer := "Roborock";
              Vacuum.model := PyStr "roborock.vacuum.s5" |});
    reflexivity.
Defined.

Lemma async_setup_entry_adds_one_entity_per_device_witness :
  lookup_str "roborock" sample_hass_data
  = Some [ ("entry-1", [PyDict sample_device; PyDict second_device]) ]
  /\ lookup_str "entry-1"
       [ ("entry-1", [PyDict sample_device; PyDict second_device]) ]
     = Some [PyDict sample_device; PyDict second_device]
  /\ Forall (fun v => isinstance_dict v = true)
       [PyDict sample_device; PyDict second_device]
  /\ exists entities,
      Vacuum.async_setup_entry "roborock" sample_hass_data "entry-1"
      = Vacuum.Added entities
      /\ List.map _device entities
         = [PyDict sample_device; PyDict second_device]
      /\ Forall (fun e => _status e = PyDict []
                          /\ py_get (_device e) (PyStr "name")
                             = Returned (_name e)) entities.
Proof.
  assert (Hall : Forall (fun v => isinstance_dict v = true)
                   [PyDict sample_device; PyDict second_device])
    by (repeat constructor).
  split; [reflexivity | split; [reflexivity | split; [exact Hall | ]]].
  apply (proj1 (@async_setup_entry_adds_one_entity_per_device "roborock"
                  sample_hass_data "entry-1"
                  [ ("entry-1", [PyDict sample_device; PyDict second_device]) ]
                  [PyDict sample_device; PyDict second_device]
                  eq_refl eq_refl)).
  exact Hall.
Defined.

Example async_setup_entry_sample :
  Vacuum.async_setup_entry "roborock" sample_hass_data "entry-1"
  = Vacuum.Added
      [ fresh_vacuum;
        Entity (PyStr "Upstairs") (PyDict second_device) (PyDict []) ].
Proof. reflexivity. Qed.

Example async_setup_entry_unknown_entry :
  Vacuum.async_setup_entry "roborock" sample_hass_data "entry-2"
  = Vacuum.SetupKeyError "entry-2".
Proof. reflexivity. Qed.
